(** * The request layer of the SDK ([src/request.js])

    A shallow embedding of [sign], [setAppId], [setHeaders], [createApiUrl],
    [handleError], [request] and the legacy adapter [_request], followed by
    the properties of the dispatch layer stated in the specification.

    Conventions of the embedding.
    - JavaScript values that the code inspects dynamically (raw errors,
      request bodies, query objects, the two [useMasterKey] settings) are
      values of [jsval]; object literals are finite maps from property names
      to values.
    - Settings that the data model fixes as strings are [option string],
      [None] standing for a field that was never assigned ([undefined]).
      The empty string is a value of its own: JavaScript treats it as falsy,
      and so does [truthy].
    - A function that may [throw] returns a [completion]; the calls made to
      collaborators are recorded, in program order, in a list of [event]s.
      What happens while the function runs and what happens later, inside
      the promise chain it returns, are kept apart: a [promise] carries the
      events of its own asynchronous steps.
    - Collaborators that live outside this file ([md5], [JSON.parse], the
      transport [ajax], the current-user provider, the clock and the
      build-time platform switch) are the fields of a [Platform]. The router
      refreshes its table in the background; a call to it is an event, and
      the table read on the next line is the one held by [AV]. *)

From Stdlib Require Import ZArith String Ascii List Bool Lia DecimalString.
From Stdlib Require DecimalZ DecimalPos.
From stdpp Require Import base option gmap strings list fin_maps pretty.

Set Warnings "-register-all".
#[local] Arguments String.append !_ _ / : simpl nomatch.

(** ** JavaScript values *)

Inductive jsval :=
  | JUndef
  | JNull
  | JBool (b : bool)
  | JNum (n : Z)
  | JNaN
  | JStr (s : string)
  | JArr (l : list jsval)
  | JObj (o : gmap string jsval).

(** Exceptions and rejection reasons built by the code itself. [AVError]
    keeps the two arguments given to the constructor of [./error]. *)
Inductive exn :=
  | JsError (message : string)
  | TypeError
  | AVError (code error : jsval).

Inductive completion (A : Type) :=
  | Normal (a : A)
  | Throw (e : exn).
Arguments Normal {A} a.
Arguments Throw {A} e.

Inductive settlement (A E : Type) :=
  | Resolved (a : A)
  | Rejected (e : E).
Arguments Resolved {A E} a.
Arguments Rejected {A E} e.

(** ToBoolean. *)
Definition truthy (v : jsval) : bool :=
  match v with
  | JUndef | JNull | JNaN => false
  | JBool b => b
  | JNum n => negb (n =? 0)%Z
  | JStr EmptyString => false
  | JStr (String _ _) => true
  | JArr _ | JObj _ => true
  end.

(** [typeof v === 'boolean'] *)
Definition is_boolean (v : jsval) : bool :=
  match v with JBool _ => true | _ => false end.

(** [typeof v === 'number'] *)
Definition is_number (v : jsval) : bool :=
  match v with JNum _ | JNaN => true | _ => false end.

(** A string-typed setting seen as a value: unassigned is [undefined]. *)
Definition js (o : option string) : jsval :=
  match o with Some s => JStr s | None => JUndef end.

(** [a || b] *)
Definition js_or (a b : jsval) : jsval := if truthy a then a else b.

(** Property read [v.k]. Reading from [undefined] or [null] throws a
    TypeError; a missing property reads as [undefined]. None of the names
    read by this file is a built-in property of a primitive or an array. *)
Definition get_prop (v : jsval) (k : string) : completion jsval :=
  match v with
  | JUndef | JNull => Throw TypeError
  | JObj o => Normal (default JUndef (o !! k))
  | _ => Normal JUndef
  end.

(** The enumerable properties of a value, as underscore's [allKeys] walks
    them: none for a primitive, the indices for an array. *)
Definition allKeys (v : jsval) : gmap string jsval :=
  match v with
  | JObj o => o
  | JArr l => list_to_map (imap (fun i x => (pretty i, x)) l)
  | _ => ∅
  end.

(** underscore's [extend(obj, s1, s2)]: every property of [s1], then every
    property of [s2], is assigned to [obj]; later assignments win. *)
Definition extend (obj : gmap string jsval) (s1 s2 : jsval) : gmap string jsval :=
  allKeys s2 ∪ (allKeys s1 ∪ obj).

(** Number to string for an integer, as in [now + key] and [`${now}`]. *)
Definition Number_toString (n : Z) : string :=
  NilZero.string_of_int (Z.to_int n).

(** [String.prototype.toLowerCase] on the ASCII letters; bytes above 127
    are left alone. *)
Definition lower_ascii (c : ascii) : ascii :=
  let n := nat_of_ascii c in
  if ((65 <=? n)%nat && (n <=? 90)%nat)%bool then ascii_of_nat (n + 32) else c.

Fixpoint toLowerCase (s : string) : string :=
  match s with
  | EmptyString => EmptyString
  | String c r => String (lower_ascii c) (toLowerCase r)
  end.

(** ** Data model *)

Module AuthOptions.
Record t := mk {
  useMasterKey : jsval;
  sessionToken : option string;
}.
End AuthOptions.

Module Config.
Record t := mk {
  useMasterKey : jsval;
  production : option bool;        (* [None] is [null] *)
  serverURLs : gmap string string;
  userAgent : option string;
  disableCurrentUser : bool;
}.
End Config.

Record AVGlobal := {
  applicationId : option string;
  applicationKey : option string;
  masterKey : option string;
  hookKey : option string;
  _config : Config.t;
}.

Record CurrentUser := { _sessionToken : option string }.

Record RequestDescriptor := {
  service : option string;
  version : option string;
  method : option string;
  path : option string;
  query : jsval;
  data : jsval;
  authOptions : option AuthOptions.t;
}.

Record AjaxArgs := {
  ajax_method : option string;
  ajax_url : string;
  ajax_query : jsval;
  ajax_data : jsval;
  ajax_headers : gmap string jsval;
}.

(** Calls to collaborators: [AV._appRouter.refresh()], [console.warn],
    [AV.User.currentAsync()] and [ajax]. *)
Inductive event :=
  | EvRefresh
  | EvWarn (msg : string)
  | EvCurrentAsync
  | EvAjax (a : AjaxArgs).

(** What the code calls but does not define. The clock is read at most once
    per call, so one reading stands for it; the provider resolves with the
    current user or with [null]; the transport settles with the parsed
    payload or with a raw error. *)
Record Platform := {
  md5 : jsval -> string;
  JSON_parse : jsval -> option jsval;   (* [None]: SyntaxError *)
  Date_getTime : Z;                     (* [new Date().getTime()] *)
  CLIENT_PLATFORM : bool;               (* [process.env.CLIENT_PLATFORM] is truthy *)
  User_currentAsync : option CurrentUser;
  ajax : AjaxArgs -> settlement jsval jsval;
}.

(** ** Effects

    [Eff A] is a run of synchronous code: the events it caused and either
    its value or the exception it threw. A [promise A E] is what such code
    hands back for later: the events of the asynchronous steps and how the
    promise settles. *)

Definition Eff (A : Type) : Type := (list event * completion A)%type.

Definition ret {A} (a : A) : Eff A := ([], Normal a).
Definition throw {A} (e : exn) : Eff A := ([], Throw e).
Definition emit (ev : event) : Eff unit := ([ev], Normal tt).
Definition lift {A} (c : completion A) : Eff A := ([], c).

Definition bind {A B} (m : Eff A) (k : A -> Eff B) : Eff B :=
  match m with
  | (evs, Normal a) => let '(evs', r) := k a in (evs ++ evs', r)
  | (evs, Throw e) => (evs, Throw e)
  end.

Notation "'let*' x ':=' m 'in' k" := (bind m (fun x => k))
  (at level 10, x name, m at level 100, k at level 200).

(** The same sequencing for code that causes no event. *)
Definition cbind {A B} (m : completion A) (k : A -> completion B) : completion B :=
  match m with
  | Normal a => k a
  | Throw e => Throw e
  end.

Notation "'try!' x ':=' m 'in' k" := (cbind m (fun x => k))
  (at level 10, x name, m at level 100, k at level 200).

Definition promise (A E : Type) : Type := (list event * settlement A E)%type.

(** [p.then(f)] *)
Definition p_then {A B E} (p : promise A E) (f : A -> promise B E) : promise B E :=
  match p with
  | (evs, Resolved a) => let '(evs', s) := f a in (evs ++ evs', s)
  | (evs, Rejected e) => (evs, Rejected e)
  end.

(** [p.catch(h)] *)
Definition p_catch {A E E'} (p : promise A E) (h : E -> promise A E') : promise A E' :=
  match p with
  | (evs, Resolved a) => (evs, Resolved a)
  | (evs, Rejected e) => let '(evs', s) := h e in (evs ++ evs', s)
  end.

(** [new Promise(executor)]: an exception thrown by the executor rejects the
    promise. *)
Definition new_Promise {A} (executor : completion (settlement A exn)) : promise A exn :=
  match executor with
  | Normal s => ([], s)
  | Throw e => ([], Rejected e)
  end.

(** [`${x}`] for a string-typed setting. *)
Definition template (o : option string) : string :=
  match o with Some s => s | None => "undefined" end.

(** [now + key]: concatenation for a string key, [NaN] for [undefined]. *)
Definition num_plus (n : Z) (key : option string) : jsval :=
  match key with
  | Some s => JStr (Number_toString n +:+ s)
  | None => JNaN
  end.

(** [String(b)] for a boolean. *)
Definition String_of_bool (b : bool) : string := if b then "true" else "false".

(** Modelled from the spec: [getSessionToken] of [./utils] is not part of
    the sources at hand. Section 4.3 describes what [setHeaders] obtains from
    it: the explicit session token carried by the AuthOptions, if any. *)
Definition getSessionToken (authOptions : AuthOptions.t) : option string :=
  AuthOptions.sessionToken authOptions.

(** The object literal [{}] as AuthOptions. *)
Definition empty_authOptions : AuthOptions.t :=
  AuthOptions.mk JUndef None.

(** ** Sample configurations, used to run the model on concrete inputs *)

(** The body [{"code":101,"error":"Object not found."}] of a server error. *)
Definition dq : string := String "034"%char "".

Definition sample_body : string :=
  "{" +:+ dq +:+ "code" +:+ dq +:+ ":101," +:+ dq +:+ "error" +:+ dq +:+ ":"
  +:+ dq +:+ "Object not found." +:+ dq +:+ "}".

(** A stand-in for [JSON.parse] that knows the texts used below and rejects
    every other one. *)
Definition sample_parse (v : jsval) : option jsval :=
  match v with
  | JStr s =>
      if String.eqb s sample_body
      then Some (JObj (<["code" := JNum 101]> (<["error" := JStr "Object not found."]> ∅)))
      else if String.eqb s "null" then Some JNull
      else None
  | _ => None
  end.

Definition demo_platform : Platform := {|
  md5 := fun v => match v with JStr s => "h(" +:+ s +:+ ")" | _ => "h(NaN)" end;
  JSON_parse := sample_parse;
  Date_getTime := 1500000000000;
  CLIENT_PLATFORM := false;
  User_currentAsync := Some {| _sessionToken := Some "user-session" |};
  ajax := fun _ => Resolved (JObj ∅);
|}.

Definition later_platform : Platform := {|
  md5 := md5 demo_platform;
  JSON_parse := JSON_parse demo_platform;
  Date_getTime := 1500000000001;
  CLIENT_PLATFORM := false;
  User_currentAsync := User_currentAsync demo_platform;
  ajax := ajax demo_platform;
|}.

Definition demo_config : Config.t :=
  Config.mk JUndef None {[ "api" := "https://x.example/" ]} (Some "LeanCloud-JS-SDK") false.

Definition demo_AV : AVGlobal := {|
  applicationId := Some "app-id";
  applicationKey := Some "app-key";
  masterKey := Some "master-key";
  hookKey := None;
  _config := demo_config;
|}.

(** Same digest and same clock reading as [demo_platform], everything else
    different. *)
Definition twin_platform : Platform := {|
  md5 := md5 demo_platform;
  JSON_parse := fun _ => Some JNull;
  Date_getTime := Date_getTime demo_platform;
  CLIENT_PLATFORM := true;
  User_currentAsync := None;
  ajax := fun _ => Rejected JUndef;
|}.

(** A transport that fails with the body of a server error. *)
Definition failing_platform : Platform := {|
  md5 := md5 demo_platform;
  JSON_parse := sample_parse;
  Date_getTime := Date_getTime demo_platform;
  CLIENT_PLATFORM := false;
  User_currentAsync := None;
  ajax := fun _ => Rejected (JObj (<["statusCode" := JNum 404]>
                                     {[ "responseText" := JStr sample_body ]}));
|}.

(** The master key is the global default. *)
Definition master_default_AV : AVGlobal := {|
  applicationId := Some "app-id";
  applicationKey := Some "app-key";
  masterKey := Some "master-key";
  hookKey := Some "hook-key";
  _config := Config.mk (JBool true) (Some true) {[ "api" := "https://x.example" ]}
                       (Some "LeanCloud-JS-SDK") true;
|}.

(** Nothing has been configured: no credentials, no service table. *)
Definition unconfigured_AV : AVGlobal := {|
  applicationId := None;
  applicationKey := None;
  masterKey := None;
  hookKey := None;
  _config := Config.mk JUndef None ∅ None false;
|}.


(** ** The functions of [request.js] *)

Section Request.

Variable W : Platform.
Variable AV : AVGlobal.

(** lines 14-21 *)
Definition sign (key : option string) (isMasterKey : bool) : string :=
  let now := Date_getTime W in
  let signature := md5 W (num_plus now key) in
  if isMasterKey then signature +:+ "," +:+ Number_toString now +:+ ",master"
  else signature +:+ "," +:+ Number_toString now.

(** lines 23-29; the header object is passed in and handed back *)
Definition setAppId (headers : gmap string jsval) (signKey : bool) : gmap string jsval :=
  if signKey then <["X-LC-Sign" := JStr (sign (applicationKey AV) false)]> headers
  else <["X-LC-Key" := js (applicationKey AV)]> headers.

(** lines 36-41 *)
Definition resolve_useMasterKey (authOptions : AuthOptions.t) : bool :=
  if is_boolean (AuthOptions.useMasterKey authOptions)
  then truthy (AuthOptions.useMasterKey authOptions)
  else if is_boolean (Config.useMasterKey (_config AV))
  then truthy (Config.useMasterKey (_config AV))
  else false.

(** lines 32-62: the header object as it stands when the promise chain is
    set up, together with the warning possibly logged on the way *)
Definition setHeaders_sync (authOptions : AuthOptions.t) (signKey : bool)
  : Eff (gmap string jsval) :=
  let headers : gmap string jsval :=
    <["Content-Type" := JStr "application/json;charset=UTF-8"]>
      (<["X-LC-Id" := js (applicationId AV)]> ∅) in
  let useMasterKey := resolve_useMasterKey authOptions in
  let* headers :=
    (if useMasterKey then
       if truthy (js (masterKey AV)) then
         if signKey
         then ret (<["X-LC-Sign" := JStr (sign (masterKey AV) true)]> headers)
         else ret (<["X-LC-Key" := JStr (template (masterKey AV) +:+ ",master")]> headers)
       else
         let* _ := emit (EvWarn "masterKey is not set, fall back to use appKey") in
         ret (setAppId headers signKey)
     else ret (setAppId headers signKey)) in
  let headers :=
    if truthy (js (hookKey AV))
    then <["X-LC-Hook-Key" := js (hookKey AV)]> headers else headers in
  let headers :=
    match Config.production (_config AV) with
    | Some b => <["X-LC-Prod" := JStr (String_of_bool b)]> headers
    | None => headers
    end in
  ret (<[(if negb (CLIENT_PLATFORM W) then "User-Agent" else "X-LC-UA")
         := js (Config.userAgent (_config AV))]> headers).

(** lines 64-78: the callback run by [Promise.resolve().then] *)
Definition setHeaders_async (authOptions : AuthOptions.t) (headers : gmap string jsval)
  : promise (gmap string jsval) exn :=
  let sessionToken := getSessionToken authOptions in
  if truthy (js sessionToken) then
    ([], Resolved (<["X-LC-Session" := js sessionToken]> headers))
  else if negb (Config.disableCurrentUser (_config AV)) then
    ([EvCurrentAsync],
     Resolved
       match User_currentAsync W with
       | Some currentUser =>
           if truthy (js (_sessionToken currentUser))
           then <["X-LC-Session" := js (_sessionToken currentUser)]> headers
           else headers
       | None => headers
       end)
  else ([], Resolved headers).

(** lines 31-79 *)
Definition setHeaders (authOptions : option AuthOptions.t) (signKey : bool)
  : Eff (promise (gmap string jsval) exn) :=
  let authOptions := default empty_authOptions authOptions in
  let* headers := setHeaders_sync authOptions signKey in
  ret (setHeaders_async authOptions headers).

(** lines 81-102 *)
Definition createApiUrl (service version path : option string) : completion string :=
  let service := default "api" service in
  let version := default "1.1" version in
  let apiURL := Config.serverURLs (_config AV) !! service in
  if negb (truthy (js apiURL)) then
    Throw (JsError ("undefined server URL for " +:+ service))
  else
    let apiURL := template apiURL in
    let apiURL :=
      match String.get (String.length apiURL - 1) apiURL with
      | Some "/"%char => apiURL
      | _ => apiURL +:+ "/"
      end in
    let apiURL := apiURL +:+ version in
    let apiURL := if truthy (js path) then apiURL +:+ template path else apiURL in
    Normal apiURL.

(** lines 105-124 *)
Definition handleError (error : jsval) : promise jsval exn :=
  new_Promise (
    try! code := get_prop error "code" in
    try! message := get_prop error "message" in
    try! responseText := get_prop error "responseText" in
    let errorJSON : jsval :=
      JObj (<["code" := js_or code (JNum (-1))]>
              (<["error" := js_or message responseText]> ∅)) in
    try! response := get_prop error "response" in
    try! response_code :=
      (if truthy response then get_prop response "code" else Normal response) in
    let errorJSON :=
      if truthy response_code then response
      else if truthy responseText then
        match JSON_parse W responseText with
        | Some parsed => parsed
        | None => errorJSON
        end
      else errorJSON in
    try! c := get_prop errorJSON "code" in
    try! e := get_prop errorJSON "error" in
    Normal (Rejected (AVError c e))).

(** lines 126-136 *)
Definition request (d : RequestDescriptor) : Eff (promise jsval exn) :=
  let data := match data d with JUndef => JObj ∅ | v => v end in
  if negb (truthy (js (applicationId AV))
           && (truthy (js (applicationKey AV)) || truthy (js (masterKey AV)))) then
    throw (JsError "Not initialized")
  else
    let* _ := emit EvRefresh in
    let* url := lift (createApiUrl (service d) (version d) (path d)) in
    let* p := setHeaders (authOptions d) false in
    ret (p_then p (fun headers =>
      let args := {| ajax_method := method d; ajax_url := url;
                     ajax_query := query d; ajax_data := data;
                     ajax_headers := headers |} in
      p_catch ([EvAjax args], ajax W args) handleError)).

(** lines 139-158 *)
Definition _request (route className objectId method : option string)
    (data : jsval) (authOptions : option AuthOptions.t) (query : jsval)
  : Eff (promise jsval exn) :=
  let data := match data with JUndef => JObj ∅ | v => v end in
  let path := "" in
  let path := if truthy (js route) then path +:+ "/" +:+ template route else path in
  let path := if truthy (js className) then path +:+ "/" +:+ template className else path in
  let path := if truthy (js objectId) then path +:+ "/" +:+ template objectId else path in
  let* fetchWhenSave :=
    lift (if truthy data then get_prop data "_fetchWhenSave" else Normal data) in
  if truthy fetchWhenSave then throw (JsError "_fetchWhenSave should be in the query") else
  let* where_ := lift (if truthy data then get_prop data "_where" else Normal data) in
  if truthy where_ then throw (JsError "_where should be in the query") else
  let '(query, data) :=
    if truthy (js method) && bool_decide (toLowerCase (template method) = "get")
    then (JObj (extend ∅ query data), JNull)
    else (query, data) in
  request {| service := None; version := None; method := method; path := Some path;
             query := query; data := data; authOptions := authOptions |}.

End Request.


(** ** Vocabulary of the statements *)

(** Does the character occur in the string? *)
Fixpoint occurs (c : ascii) (s : string) : bool :=
  match s with
  | EmptyString => false
  | String a r => if Ascii.eqb a c then true else occurs c r
  end.

(** A property read that is known not to throw. *)
Definition field (v : jsval) (k : string) : jsval :=
  match get_prop v k with
  | Normal x => x
  | Throw _ => JUndef
  end.

(** [undefined] or [null]. *)
Definition nullish (v : jsval) : bool :=
  match v with JUndef | JNull => true | _ => false end.

(** Everything a call caused: while it ran, then inside the promise. *)
Definition all_events {A E} (r : Eff (promise A E)) : list event :=
  match r with
  | (evs, Normal p) => evs ++ fst p
  | (evs, Throw _) => evs
  end.

(** The guard of [request], line 127. *)
Definition initialized (AV : AVGlobal) : bool :=
  truthy (js (applicationId AV))
  && (truthy (js (applicationKey AV)) || truthy (js (masterKey AV))).

(** Two strings that differ at most in the case of their ASCII letters. *)
Definition case_insensitive_eq (a b : string) : Prop :=
  toLowerCase a = toLowerCase b.

(** The path of the legacy adapter as the specification words it: the
    segments that are present, each behind a separator, in the order route,
    class name, object id. *)
Definition segment (o : option string) : string :=
  match o with
  | Some (String c s) => "/" +:+ String c s
  | _ => ""
  end.

Definition legacy_path (route className objectId : option string) : string :=
  segment route +:+ segment className +:+ segment objectId.

(** The value of the key header for one call. *)
Definition key_header (AV : AVGlobal) (authOptions : option AuthOptions.t) : jsval :=
  if resolve_useMasterKey AV (default empty_authOptions authOptions)
     && truthy (js (masterKey AV))
  then JStr (template (masterKey AV) +:+ ",master")
  else js (applicationKey AV).

(** The master key is requested by default, but none is set. *)
Definition fallback_AV : AVGlobal := {|
  applicationId := Some "app-id";
  applicationKey := Some "app-key";
  masterKey := None;
  hookKey := None;
  _config := Config.mk (JBool true) None {[ "api" := "https://x.example" ]} None false;
|}.

(** The value of the signature header for one call. *)
Definition sign_header (W : Platform) (AV : AVGlobal) (authOptions : option AuthOptions.t)
  : string :=
  if resolve_useMasterKey AV (default empty_authOptions authOptions)
     && truthy (js (masterKey AV))
  then sign W (masterKey AV) true
  else sign W (applicationKey AV) false.

(** How often an event of a given kind occurs in a trace. *)
Fixpoint count_events (p : event -> bool) (evs : list event) : nat :=
  match evs with
  | [] => 0
  | ev :: rest => (if p ev then 1 else 0) + count_events p rest
  end.

Definition is_refresh (ev : event) : bool :=
  match ev with EvRefresh => true | _ => false end.

Definition is_ajax (ev : event) : bool :=
  match ev with EvAjax _ => true | _ => false end.

Definition is_currentAsync (ev : event) : bool :=
  match ev with EvCurrentAsync => true | _ => false end.

Definition is_warn (ev : event) : bool :=
  match ev with EvWarn _ => true | _ => false end.

(** ** The leaderboard module ([leaderboard.js])

    The leaderboard functions are callers of [request]. A leaderboard, the
    receiver [this] of the methods, is an object: a finite map from property
    names to values. What the module takes from [./utils], [./av] and
    underscore is gathered in [Helpers]. [each_visits obj] lists the pairs
    (value, key) that underscore's [_.forEach(obj, f)] and [_.map(obj, f)]
    hand to [f], in the order of the calls; a key is a string for an object
    and an index for an array. *)

Record Helpers := {
  ensureArray : jsval -> jsval;
  parseDate : jsval -> jsval;
  AV_decode : jsval -> jsval;
  each_visits : jsval -> list (jsval * jsval);
}.

Module Statistic.
Record t := mk {
  name : jsval;
  value : jsval;
  user : jsval;
  position : jsval;
  version : jsval;
}.
End Statistic.

(** ToString, as a template literal applies it. Integers are written in
    full, which is what JavaScript does below 10^21; an array is its
    elements joined by commas, [null] and [undefined] counting as empty. *)
Fixpoint ToString (v : jsval) : string :=
  match v with
  | JUndef => "undefined"
  | JNull => "null"
  | JBool b => String_of_bool b
  | JNum n => Number_toString n
  | JNaN => "NaN"
  | JStr s => s
  | JArr l =>
      (fix join (l : list jsval) : string :=
         match l with
         | [] => ""
         | x :: r =>
             let e := match x with JUndef | JNull => "" | _ => ToString x end in
             match r with
             | [] => e
             | _ => e +:+ "," +:+ join r
             end
         end) l
  | JObj _ => "[object Object]"
  end.

(** [v.join(',')]: only an array has the method. *)
Definition join_comma (v : jsval) : completion string :=
  match v with
  | JArr l => Normal (ToString (JArr l))
  | _ => Throw TypeError
  end.

(** [key === 'literal'] *)
Definition is_string (v : jsval) (s : string) : bool :=
  match v with
  | JStr k => bool_decide (k = s)
  | _ => false
  end.

(** [p.then(f)] for a callback that returns a plain value or throws. *)
Definition p_then_value {A B} (p : promise A exn) (f : A -> completion B) : promise B exn :=
  match p with
  | (evs, Resolved a) =>
      match f a with
      | Normal b => (evs, Resolved b)
      | Throw e => (evs, Rejected e)
      end
  | (evs, Rejected e) => (evs, Rejected e)
  end.

(** [Promise.resolve().then(callback)]: the callback runs inside the
    chain, so what it does and what it throws belong to the promise. *)
Definition p_resolve_then {A} (callback : Eff (promise A exn)) : promise A exn :=
  match callback with
  | (evs, Normal (evs', s)) => (evs ++ evs', s)
  | (evs, Throw e) => (evs, Rejected e)
  end.

(** A loop over the visited pairs that updates [this] in place: when the
    body throws, the loop stops and the updates made so far remain. *)
Fixpoint each_update {S A} (f : S -> A -> completion S) (s : S) (l : list A)
  : S * completion unit :=
  match l with
  | [] => (s, Normal tt)
  | x :: r =>
      match f s x with
      | Normal s' => each_update f s' r
      | Throw e => (s, Throw e)
      end
  end.

(** [array.map(f)] for a callback that may throw. *)
Fixpoint map_try {A B} (f : A -> completion B) (l : list A) : completion (list B) :=
  match l with
  | [] => Normal []
  | x :: r =>
      try! y := f x in
      try! ys := map_try f r in
      Normal (y :: ys)
  end.

(** [results.map(f)]: a value that is not an array has no such method. *)
Definition results_map {B} (results : jsval) (f : jsval -> completion B)
  : completion (list B) :=
  match results with
  | JArr l => map_try f l
  | _ => Throw TypeError
  end.

(** lines 69-98: [new Leaderboard(statisticName)] *)
Definition Leaderboard (statisticName : jsval) : gmap string jsval :=
  <["createdAt" := JUndef]>
    (<["nextResetAt" := JUndef]>
      (<["version" := JUndef]>
        (<["versionChangeInterval" := JUndef]>
          (<["updateStrategy" := JUndef]>
            (<["order" := JUndef]>
              (<["statisticName" := statisticName]> ∅)))))).

(** lines 106-107 *)
Definition createWithoutData (statisticName : jsval) : gmap string jsval :=
  Leaderboard statisticName.

Section LeaderboardModule.

Variable W : Platform.
Variable AV : AVGlobal.
Variable lib : Helpers.

(** lines 208-220: the callback of [_.forEach] in [_finishFetch] *)
Definition _finishFetch_each (this : gmap string jsval) (visit : jsval * jsval)
  : completion (gmap string jsval) :=
  let '(value, key) := visit in
  if is_string key "updatedAt" || is_string key "objectId" then Normal this
  else
    let key := if is_string key "expiredAt" then JStr "nextResetAt" else key in
    let value := if is_string key "createdAt" then parseDate lib value else value in
    try! type := get_prop value "__type" in
    let value := if is_string type "Date" then parseDate lib (field value "iso") else value in
    Normal (<[ToString key := value]> this).

(** lines 207-222: [this] after the call, and how the call ended *)
Definition _finishFetch (this : gmap string jsval) (data : jsval)
  : gmap string jsval * completion unit :=
  each_update _finishFetch_each this (each_visits lib data).

(** [.then(data => this._finishFetch(data))]: the promise resolves with
    [this], or is rejected with what [_finishFetch] threw. *)
Definition then_finishFetch (this : gmap string jsval) (p : promise jsval exn)
  : promise (gmap string jsval) exn :=
  p_then_value p (fun data =>
    match _finishFetch this data with
    | (this', Normal _) => Normal this'
    | (_, Throw e) => Throw e
    end).

(** lines 118-135 *)
Definition createLeaderboard (statisticName order versionChangeInterval updateStrategy : jsval)
    (authOptions : option AuthOptions.t) : Eff (promise (gmap string jsval) exn) :=
  let* p := request W AV
    {| service := None; version := None; method := Some "POST";
       path := Some "/leaderboard/leaderboards"; query := JUndef;
       data := JObj (<["statisticName" := statisticName]>
                      (<["order" := order]>
                        (<["versionChangeInterval" := versionChangeInterval]>
                          (<["updateStrategy" := updateStrategy]> ∅))));
       authOptions := authOptions |} in
  ret (then_finishFetch (Leaderboard statisticName) p).

(** lines 228-234 *)
Definition fetch (this : gmap string jsval) (authOptions : option AuthOptions.t)
  : Eff (promise (gmap string jsval) exn) :=
  let* p := request W AV
    {| service := None; version := None; method := Some "GET";
       path := Some ("/leaderboard/leaderboards/"
                     +:+ ToString (field (JObj this) "statisticName"));
       query := JUndef; data := JUndef; authOptions := authOptions |} in
  ret (then_finishFetch this p).

(** lines 142-143 *)
Definition getLeaderboard (statisticName : jsval) (authOptions : option AuthOptions.t)
  : Eff (promise (gmap string jsval) exn) :=
  fetch (createWithoutData statisticName) authOptions.

(** lines 162-171 and 192-201: one statistic per element of [results] *)
Definition statistics_of (user : jsval) (payload : jsval) : completion (list Statistic.t) :=
  try! results := get_prop payload "results" in
  results_map results (fun statisticData =>
    let decoded := AV_decode lib statisticData in
    try! name := get_prop decoded "statisticName" in
    try! value := get_prop decoded "statisticValue" in
    try! version := get_prop decoded "version" in
    Normal (Statistic.mk name value user JUndef version)).

(** lines 152-172; the second parameter is given by its [statisticNames] *)
Definition getStatistics (user statisticNames : jsval) (authOptions : option AuthOptions.t)
  : promise (list Statistic.t) exn :=
  p_resolve_then (
    let* id := lift (if truthy user then get_prop user "id" else Normal user) in
    if negb (truthy id) then throw (JsError "user must be an AV.User") else
    let* p := request W AV
      {| service := None; version := None; method := Some "GET";
         path := Some ("/leaderboard/users/" +:+ ToString (field user "id") +:+ "/statistics");
         query := JObj {[ "statistics" :=
                            if truthy statisticNames then ensureArray lib statisticNames
                            else JUndef ]};
         data := JUndef; authOptions := authOptions |} in
    ret (p_then_value p (statistics_of user))).

(** lines 180-202 *)
Definition updateStatistics (user statistics : jsval) (authOptions : option AuthOptions.t)
  : promise (list Statistic.t) exn :=
  p_resolve_then (
    let* id := lift (if truthy user then get_prop user "id" else Normal user) in
    if negb (truthy id) then throw (JsError "user must be an AV.User") else
    let data :=
      JArr (map (fun '(value, key) =>
                   JObj (<["statisticName" := key]> (<["statisticValue" := value]> ∅)))
                (each_visits lib statistics)) in
    let* p := request W AV
      {| service := None; version := None; method := Some "POST";
         path := Some ("/leaderboard/users/" +:+ ToString (field user "id") +:+ "/statistics");
         query := JUndef; data := data; authOptions := authOptions |} in
    ret (p_then_value p (statistics_of user))).

(** lines 249-259: one ranked statistic per element of [results] *)
Definition rankings_of (payload : jsval) : completion (list Statistic.t) :=
  try! results := get_prop payload "results" in
  results_map results (fun statisticData =>
    let decoded := AV_decode lib statisticData in
    try! user := get_prop decoded "user" in
    try! name := get_prop decoded "statisticName" in
    try! value := get_prop decoded "statisticValue" in
    try! position := get_prop decoded "position" in
    Normal (Statistic.mk name value user position JUndef)).

(** lines 235-260; the first parameter is given by its three properties *)
Definition _getResults (this : gmap string jsval) (skip limit includeUserKeys : jsval)
    (authOptions : option AuthOptions.t) (self : jsval)
  : Eff (promise (list Statistic.t) exn) :=
  let* includeUser :=
    lift (if truthy includeUserKeys
          then try! joined := join_comma (ensureArray lib includeUserKeys) in
               Normal (JStr joined)
          else Normal JUndef) in
  let* p := request W AV
    {| service := None; version := None; method := Some "GET";
       path := Some ("/leaderboard/leaderboards/"
                     +:+ ToString (field (JObj this) "statisticName")
                     +:+ "/positions" +:+ (if truthy self then "/self" else ""));
       query := JObj (<["skip" := skip]>
                       (<["limit" := limit]> (<["includeUser" := includeUser]> ∅)));
       data := JUndef; authOptions := authOptions |} in
  ret (p_then_value p rankings_of).

(** lines 270-272 *)
Definition getResults (this : gmap string jsval) (skip limit includeUserKeys : jsval)
    (authOptions : option AuthOptions.t) : Eff (promise (list Statistic.t) exn) :=
  _getResults this skip limit includeUserKeys authOptions JUndef.

(** lines 281-283 *)
Definition getResultsAroundUser (this : gmap string jsval) (limit includeUserKeys : jsval)
    (authOptions : option AuthOptions.t) : Eff (promise (list Statistic.t) exn) :=
  _getResults this JUndef limit includeUserKeys authOptions (JBool true).

(** lines 284-291 *)
Definition _update (this : gmap string jsval) (data : jsval)
    (authOptions : option AuthOptions.t) : Eff (promise (gmap string jsval) exn) :=
  let* p := request W AV
    {| service := None; version := None; method := Some "PUT";
       path := Some ("/leaderboard/leaderboards/"
                     +:+ ToString (field (JObj this) "statisticName"));
       query := JUndef; data := data; authOptions := authOptions |} in
  ret (then_finishFetch this p).



(** lines 315-323 *)
Definition reset (this : gmap string jsval) (authOptions : option AuthOptions.t)
  : Eff (promise (gmap string jsval) exn) :=
  let* p := request W AV
    {| service := None; version := None; method := Some "PUT";
       path := Some ("/leaderboard/leaderboards/"
                     +:+ ToString (field (JObj this) "statisticName")
                     +:+ "/incrementVersion");
       query := JUndef; data := JUndef; authOptions := authOptions |} in
  ret (then_finishFetch this p).

(** lines 329-335 *)
Definition destroy (this : gmap string jsval) (authOptions : option AuthOptions.t)
  : Eff (promise jsval exn) :=
  let* p := request W AV
    {| service := None; version := None; method := Some "DELETE";
       path := Some ("/leaderboard/leaderboards/"
                     +:+ ToString (field (JObj this) "statisticName"));
       query := JUndef; data := JUndef; authOptions := authOptions |} in
  ret (p_then_value p (fun _ => Normal JUndef)).

End LeaderboardModule.

(** Helpers to run the leaderboard functions on concrete inputs: arrays
    are kept by [ensureArray], a missing value becomes the empty array and
    anything else an array of one; a date is a wrapper around its source;
    decoding changes nothing; an object is visited key by key and an array
    index by index. *)
Definition demo_helpers : Helpers := {|
  ensureArray := fun v =>
    match v with
    | JArr l => JArr l
    | JUndef | JNull => JArr []
    | _ => JArr [v]
    end;
  parseDate := fun v => JObj {[ "date" := v ]};
  AV_decode := fun v => v;
  each_visits := fun v =>
    match v with
    | JObj o => map (fun '(k, x) => (x, JStr k)) (map_to_list o)
    | JArr l => imap (fun i x => (x, JNum (Z.of_nat i))) l
    | _ => []
    end;
|}.

(** A transport that answers every call with one payload. *)
Definition answering_platform (payload : jsval) : Platform := {|
  md5 := md5 demo_platform;
  JSON_parse := sample_parse;
  Date_getTime := Date_getTime demo_platform;
  CLIENT_PLATFORM := false;
  User_currentAsync := None;
  ajax := fun _ => Resolved payload;
|}.

(** A leaderboard as the server describes it. *)
Definition sample_leaderboard_data : jsval :=
  JObj (<["statisticName" := JStr "score"]>
         (<["order" := JStr "descending"]>
           (<["version" := JNum 3]>
             (<["objectId" := JStr "5b0b97cf"]>
               (<["expiredAt" := JObj (<["__type" := JStr "Date"]>
                                        {[ "iso" := JStr "2018-06-03T16:00:00.000Z" ]})]>
                 {[ "createdAt" := JStr "2018-05-28T05:46:55.035Z" ]}))))).





(** ** Proof steps that recur *)

(** The optional headers: one case per way the hook key, the production
    flag and the platform switch can be set. *)
Ltac header_cases W AV :=
  destruct (truthy (js (hookKey AV))), (Config.production (_config AV)),
    (CLIENT_PLATFORM W); cbn [negb]; simplify_map_eq; done.

(** An event of a trace that holds at most the fall-back warning. *)
Ltac only_warning H :=
  first [ now apply elem_of_nil in H
        | apply list_elem_of_singleton in H; first [exact H | discriminate] ].

(** ** Strings *)

Lemma append_nil_r (s : string) : s +:+ "" = s.
Proof. induction s as [|c s IH]; simpl; [reflexivity | f_equal; exact IH]. Qed.

Lemma append_assoc (a b c : string) : (a +:+ b) +:+ c = a +:+ (b +:+ c).
Proof. induction a as [|x a IH]; simpl; [reflexivity | f_equal; exact IH]. Qed.

Lemma append_length (a b : string) :
  String.length (a +:+ b) = (String.length a + String.length b)%nat.
Proof. induction a as [|x a IH]; simpl; [reflexivity | f_equal; exact IH]. Qed.

Lemma append_inv_tail (a b c : string) : a +:+ c = b +:+ c -> a = b.
Proof.
  revert b. induction a as [|x a IH]; intros [|y b] H; simpl in H.
  - reflexivity.
  - apply (f_equal String.length) in H. simpl in H. rewrite append_length in H. lia.
  - apply (f_equal String.length) in H. simpl in H. rewrite append_length in H. lia.
  - injection H as -> H. f_equal. now apply IH.
Qed.

Lemma occurs_append c (a b : string) : occurs c (a +:+ b) = occurs c a || occurs c b.
Proof.
  induction a as [|x a IH]; simpl; [reflexivity|].
  destruct (Ascii.eqb x c); [reflexivity | exact IH].
Qed.

(** Cutting at the last occurrence of a separator is unambiguous. *)
Lemma split_last_sep c (a b s t : string) :
  occurs c s = false -> occurs c t = false ->
  a +:+ String c s = b +:+ String c t -> a = b /\ s = t.
Proof.
  intros Hs Ht. revert b.
  induction a as [|x a IH]; intros [|y b] H; simpl in H.
  - injection H as H. now split.
  - injection H as <- H. subst s.
    rewrite occurs_append in Hs. simpl in Hs. rewrite Ascii.eqb_refl in Hs.
    now rewrite orb_true_r in Hs.
  - injection H as -> H. subst t.
    rewrite occurs_append in Ht. simpl in Ht. rewrite Ascii.eqb_refl in Ht.
    now rewrite orb_true_r in Ht.
  - injection H as -> H. destruct (IH b H) as [-> ->]. now split.
Qed.

Lemma last_char_slash (s : string) :
  String.get (String.length s - 1) s = Some "/"%char <-> exists stem, s = stem +:+ "/".
Proof.
  induction s as [|c s IH]; simpl.
  - split; [discriminate | intros [[|x stem] H]; simpl in H; discriminate].
  - destruct s as [|c' s'].
    + simpl. split.
      * intros [= ->]. now exists "".
      * intros [[|x stem] H]; simpl in H.
        -- now injection H as ->.
        -- injection H as _ H. destruct stem; discriminate.
    + replace (String.length (String c' s') - 0)%nat
        with (S (String.length (String c' s') - 1)) by (simpl; lia).
      rewrite IH. split.
      * intros [stem ->]. now exists (String c stem).
      * intros [[|x stem] H]; simpl in H.
        -- injection H as _ H. discriminate.
        -- injection H as _ H. now exists stem.
Qed.

(** Decimal numerals contain digits and at most a sign. *)
Lemma digits_no_comma (d : Decimal.uint) :
  occurs "," (NilEmpty.string_of_uint d) = false.
Proof. induction d; simpl; auto. Qed.

Lemma Number_toString_no_comma (n : Z) : occurs "," (Number_toString n) = false.
Proof.
  unfold Number_toString.
  destruct (Z.to_int n) as [d|d]; simpl;
    destruct d; simpl; auto using digits_no_comma.
Qed.

Lemma Number_toString_inj (n m : Z) : Number_toString n = Number_toString m -> n = m.
Proof.
  unfold Number_toString. intros H.
  apply DecimalZ.to_int_inj.
  assert (Hnn : forall z, Z.to_int z <> Decimal.Pos Decimal.Nil
                       /\ Z.to_int z <> Decimal.Neg Decimal.Nil).
  { intros [|p|p]; simpl; split; try discriminate;
      intros [= Hp]; now apply DecimalPos.Unsigned.to_uint_nonnil in Hp. }
  destruct (Hnn n) as [Hn1 Hn2], (Hnn m) as [Hm1 Hm2].
  pose proof (NilZero.isi _ Hn1 Hn2) as En.
  pose proof (NilZero.isi _ Hm1 Hm2) as Em.
  rewrite H in En. rewrite En in Em. now injection Em.
Qed.

(** ** The signer *)

(** C10. For every secret and elevated flag, [sign] returns
    ["<digest>,<t>"], where [t] is the clock reading in milliseconds and
    [digest] is the hash of [t] followed by the secret, with [",master"]
    appended exactly when the flag is set. The output is determined by the
    digest function, the secret and [t]: two calls that read the same
    millisecond agree, and two calls that read different milliseconds
    differ. *)
Theorem sign_format_and_determinism (W W' : Platform) (secret : string) (elevated : bool) :
  sign W (Some secret) elevated
    = md5 W (JStr (Number_toString (Date_getTime W) +:+ secret))
      +:+ "," +:+ Number_toString (Date_getTime W)
      +:+ (if elevated then ",master" else "")
  /\ (md5 W' = md5 W -> Date_getTime W' = Date_getTime W ->
      sign W' (Some secret) elevated = sign W (Some secret) elevated)
  /\ (Date_getTime W' <> Date_getTime W ->
      sign W' (Some secret) elevated <> sign W (Some secret) elevated).
Proof.
  split; [|split].
  - unfold sign. destruct elevated; simpl.
    + reflexivity.
    + rewrite append_nil_r. reflexivity.
  - intros Hmd5 Hnow. unfold sign. simpl. now rewrite Hmd5, Hnow.
  - intros Hnow Heq. apply Hnow. apply Number_toString_inj.
    unfold sign in Heq. cbv zeta in Heq.
    destruct elevated.
    + rewrite <- !append_assoc in Heq. apply append_inv_tail in Heq.
      rewrite !append_assoc in Heq. simpl in Heq.
      now apply split_last_sep in Heq; auto using Number_toString_no_comma.
    + simpl in Heq.
      now apply split_last_sep in Heq; auto using Number_toString_no_comma.
Qed.

Lemma sign_format_and_determinism_witness :
  sign twin_platform (Some "app-key") true = sign demo_platform (Some "app-key") true
  /\ sign later_platform (Some "app-key") true <> sign demo_platform (Some "app-key") true.
Proof.
  split.
  - apply (sign_format_and_determinism demo_platform twin_platform "app-key" true);
      reflexivity.
  - apply (sign_format_and_determinism demo_platform later_platform "app-key" true).
    vm_compute. discriminate.
Defined.

(** ** The URL builder *)

Lemma createApiUrl_missing (AV : AVGlobal) (service version path : option string) :
  truthy (js (Config.serverURLs (_config AV) !! default "api" service)) = false ->
  createApiUrl AV service version path
    = Throw (JsError ("undefined server URL for " +:+ default "api" service)).
Proof. intros H. unfold createApiUrl. simpl. now rewrite H. Qed.

Lemma slash_case {A} (o : option ascii) (x y : A) :
  match o with Some "/"%char => x | _ => y end
  = if bool_decide (o = Some "/"%char) then x else y.
Proof. destruct o as [[[] [] [] [] [] [] [] []]|]; reflexivity. Qed.

Lemma createApiUrl_found (AV : AVGlobal) (service version path : option string) c base :
  Config.serverURLs (_config AV) !! default "api" service = Some (String c base) ->
  createApiUrl AV service version path
    = Normal ((if bool_decide (String.get (String.length (String c base) - 1) (String c base)
                               = Some "/"%char)
               then String c base else String c base +:+ "/")
              +:+ default "1.1" version +:+ default "" path).
Proof.
  intros H. unfold createApiUrl. cbv zeta. rewrite H. cbn [js truthy negb template].
  rewrite slash_case.
  destruct path as [[|x p]|]; cbn [js truthy template default];
    rewrite ?append_nil_r; try reflexivity.
  now rewrite append_assoc.
Qed.



(** ** The header builder *)

Lemma bind_ret {A B} (a : A) (k : A -> Eff B) : bind (ret a) k = k a.
Proof. unfold bind, ret. destruct (k a) as [evs r]. reflexivity. Qed.

Lemma setAppId_plain (W : Platform) (AV : AVGlobal) (h : gmap string jsval) :
  setAppId W AV h false = <["X-LC-Key" := js (applicationKey AV)]> h.
Proof. reflexivity. Qed.

(** The synchronous part never throws; without the signing flag it sets the
    plain key header, and it never sets the signature or the session
    header. *)
Lemma setHeaders_sync_plain (W : Platform) (AV : AVGlobal) (ao : AuthOptions.t) :
  exists w h,
    setHeaders_sync W AV ao false = (w, Normal h)
    /\ (forall ev, ev ∈ w -> ev = EvWarn "masterKey is not set, fall back to use appKey")
    /\ h !! "X-LC-Key" = Some (key_header AV (Some ao))
    /\ h !! "X-LC-Sign" = None
    /\ h !! "X-LC-Session" = None.
Proof.
  unfold setHeaders_sync, key_header.
  change (default empty_authOptions (Some ao)) with ao.
  destruct (resolve_useMasterKey AV ao), (truthy (js (masterKey AV)));
    cbn [andb]; rewrite ?bind_ret; rewrite ?setAppId_plain.
  all: do 2 eexists; (split; [reflexivity|]).
  all: split; [intros ev Hev; only_warning Hev|].
  all: header_cases W AV.
Qed.

(** Whatever the signing flag, the synchronous part ends normally, logs at
    most the fall-back warning and leaves the session header unset. *)
Lemma setHeaders_sync_run (W : Platform) (AV : AVGlobal) (ao : AuthOptions.t) (signKey : bool) :
  exists w h,
    setHeaders_sync W AV ao signKey = (w, Normal h)
    /\ (EvCurrentAsync ∉ w)
    /\ h !! "X-LC-Session" = None.
Proof.
  unfold setHeaders_sync, setAppId.
  destruct (resolve_useMasterKey AV ao), (truthy (js (masterKey AV))), signKey;
    rewrite ?bind_ret.
  all: do 2 eexists; (split; [reflexivity|]).
  all: split; [intros Hev; only_warning Hev|].
  all: header_cases W AV.
Qed.

(** What the callback of the promise chain does to the header object. *)
Lemma setHeaders_async_run (W : Platform) (AV : AVGlobal) (ao : AuthOptions.t)
    (h : gmap string jsval) :
  exists evs h',
    setHeaders_async W AV ao h = (evs, Resolved h')
    /\ (forall k, k <> "X-LC-Session" -> h' !! k = h !! k)
    /\ match AuthOptions.sessionToken ao with
       | Some (String c tok) =>
           evs = [] /\ h' = <["X-LC-Session" := JStr (String c tok)]> h
       | _ =>
           if Config.disableCurrentUser (_config AV) then evs = [] /\ h' = h
           else
             evs = [EvCurrentAsync]
             /\ h' = match User_currentAsync W with
                     | Some {| _sessionToken := Some (String c tok) |} =>
                         <["X-LC-Session" := JStr (String c tok)]> h
                     | _ => h
                     end
       end.
Proof.
  unfold setHeaders_async, getSessionToken.
  destruct (AuthOptions.sessionToken ao) as [[|c tok]|]; cbn [js truthy].
  2: { do 2 eexists. split; [reflexivity|]. split; [|done].
       intros k Hk. now rewrite lookup_insert_ne. }
  all: destruct (Config.disableCurrentUser (_config AV)); cbn [negb].
  all: do 2 eexists; (split; [reflexivity|]).
  all: split; [|done || (split; [reflexivity|])].
  all: try (intros k Hk).
  all: destruct (User_currentAsync W) as [[[[|c tok]|]]|]; cbn [_sessionToken js truthy];
    try reflexivity; now rewrite lookup_insert_ne.
Qed.

(** The explicit token [""] is not used: the provider is asked, and the
    session header carries the provider's token instead. *)
Lemma setHeaders_blank_token_queries_provider :
  AuthOptions.sessionToken (AuthOptions.mk JUndef (Some "")) = Some ""
  /\ exists h,
       setHeaders demo_platform demo_AV (Some (AuthOptions.mk JUndef (Some ""))) false
         = ([], Normal ([EvCurrentAsync], Resolved h))
       /\ h !! "X-LC-Session" = Some (JStr "user-session")
       /\ h !! "X-LC-Session" <> Some (JStr "").
Proof.
  split; [reflexivity|]. eexists. split; [reflexivity|].
  split; [reflexivity | discriminate].
Qed.

(** C9, amended. In [setHeaders], an explicit session token of the
    AuthOptions that is not the empty string is set as the session header,
    and the current-user provider is not queried. Otherwise, unless
    [disableCurrentUser] is set, the provider is queried exactly once, and
    the session header is attached exactly when the provider yields a user
    whose session token is not empty; with the flag set nothing is queried
    and no session header is attached. The asynchronous step changes the
    session header only: every header computed synchronously is handed over
    as it was, and the promise always resolves. *)
Theorem setHeaders_session (W : Platform) (AV : AVGlobal)
    (authOptions : option AuthOptions.t) (signKey : bool) :
  exists w h evs h',
    setHeaders_sync W AV (default empty_authOptions authOptions) signKey = (w, Normal h)
    /\ setHeaders W AV authOptions signKey = (w, Normal (evs, Resolved h'))
    /\ (EvCurrentAsync ∉ w)
    /\ h !! "X-LC-Session" = None
    /\ (forall k, k <> "X-LC-Session" -> h' !! k = h !! k)
    /\ match AuthOptions.sessionToken (default empty_authOptions authOptions) with
       | Some (String c tok) =>
           evs = [] /\ h' !! "X-LC-Session" = Some (JStr (String c tok))
       | _ =>
           if Config.disableCurrentUser (_config AV)
           then evs = [] /\ h' !! "X-LC-Session" = None
           else
             evs = [EvCurrentAsync]
             /\ h' !! "X-LC-Session"
                = match User_currentAsync W with
                  | Some {| _sessionToken := Some (String c tok) |} =>
                      Some (JStr (String c tok))
                  | _ => None
                  end
       end.
Proof.
  set (ao := default empty_authOptions authOptions).
  destruct (setHeaders_sync_run W AV ao signKey) as (w & h & Hsync & Hw & Hs).
  destruct (setHeaders_async_run W AV ao h) as (evs & h' & Hasync & Hkeep & Hcase).
  exists w, h, evs, h'.
  split; [exact Hsync|]. split.
  { unfold setHeaders. fold ao. rewrite Hsync. unfold bind, ret.
    rewrite Hasync. now rewrite app_nil_r. }
  split; [exact Hw|]. split; [exact Hs|]. split; [exact Hkeep|].
  destruct (AuthOptions.sessionToken ao) as [[|c tok]|].
  2: { destruct Hcase as [-> ->]. split; [reflexivity|]. apply lookup_insert_eq. }
  all: destruct (Config.disableCurrentUser (_config AV));
    destruct Hcase as [-> ->]; (split; [reflexivity|]); try exact Hs.
  all: destruct (User_currentAsync W) as [[[[|c tok]|]]|];
    try exact Hs; apply lookup_insert_eq.
Qed.

Lemma setHeaders_session_witness :
  exists w evs h',
    setHeaders demo_platform master_default_AV
      (Some (AuthOptions.mk JUndef (Some "explicit-session"))) false
      = (w, Normal (evs, Resolved h'))
    /\ evs = []
    /\ h' !! "X-LC-Session" = Some (JStr "explicit-session").
Proof.
  destruct (setHeaders_session demo_platform master_default_AV
              (Some (AuthOptions.mk JUndef (Some "explicit-session"))) false)
    as (w & h & evs & h' & _ & Hrun & _ & _ & _ & Hcase).
  cbn in Hcase. destruct Hcase as [Hevs Hsession].
  exists w, evs, h'. split; [exact Hrun|]. split; [exact Hevs | exact Hsession].
Defined.

(** ** The error normalizer *)

Lemma get_prop_field (v : jsval) (k : string) :
  nullish v = false -> get_prop v k = Normal (field v k).
Proof. unfold field. destruct v; simpl; intros H; congruence. Qed.

Lemma truthy_not_nullish (v : jsval) : truthy v = true -> nullish v = false.
Proof. destruct v; simpl; congruence. Qed.

Lemma new_Promise_cbind {A B} (m : completion A) (k : A -> completion (settlement B exn)) :
  (forall a, exists e, new_Promise (k a) = ([], Rejected e)) ->
  exists e, new_Promise (cbind m k) = ([], Rejected e).
Proof. intros Hk. destruct m as [a|e]; simpl; [apply Hk | eauto]. Qed.

(** The promise built by [handleError] is always a rejected one. *)
Lemma handleError_rejects (W : Platform) (error : jsval) :
  exists e, handleError W error = ([], Rejected e).
Proof.
  unfold handleError. repeat (apply new_Promise_cbind; intros ?). simpl. eauto.
Qed.

(** The body of [handleError] for an error that has properties to read. *)
Lemma handleError_unfold (W : Platform) (error : jsval) :
  nullish error = false ->
  handleError W error =
    new_Promise (
      let fallback :=
        JObj (<["code" := js_or (field error "code") (JNum (-1))]>
                (<["error" := js_or (field error "message") (field error "responseText")]> ∅)) in
      let errorJSON :=
        if truthy (field error "response") && truthy (field (field error "response") "code")
        then field error "response"
        else if truthy (field error "responseText") then
          match JSON_parse W (field error "responseText") with
          | Some parsed => parsed
          | None => fallback
          end
        else fallback in
      try! c := get_prop errorJSON "code" in
      try! e := get_prop errorJSON "error" in
      Normal (Rejected (AVError c e))).
Proof.
  intros Herr. unfold handleError.
  rewrite !(get_prop_field error) by exact Herr. cbn [cbind].
  destruct (truthy (field error "response")) eqn:Hresp; cbn [andb].
  - rewrite (get_prop_field (field error "response")) by now apply truthy_not_nullish.
    reflexivity.
  - cbn [cbind]. rewrite Hresp. reflexivity.
Qed.

Lemma handleError_from (v : jsval) :
  nullish v = false ->
  new_Promise (try! c := get_prop v "code" in
               try! e := get_prop v "error" in
               Normal (Rejected (E:=exn) (A:=jsval) (AVError c e)))
  = ([], Rejected (AVError (field v "code") (field v "error"))).
Proof. intros Hv. rewrite !get_prop_field by exact Hv. reflexivity. Qed.

(** A body that parses to [null] leaves nothing to read the code from: the
    promise is rejected with the TypeError raised inside the executor. *)
Lemma handleError_null_body :
  handleError demo_platform (JObj {[ "responseText" := JStr "null" ]})
  = ([], Rejected TypeError).
Proof. reflexivity. Qed.

(** Two raw errors on which the normalizer does not behave as described.
    A nested response whose numeric code is 0 is passed over: the rejection
    carries -1 and no message instead of the response's 0 and ["boom"]. A
    string code found on the raw error is handed on as it is, so the code of
    the rejection is not a number. *)
Lemma handleError_code_counterexample :
  (let response := JObj (<["code" := JNum 0]> {[ "error" := JStr "boom" ]}) in
   let error := JObj {[ "response" := response ]} in
   field error "response" = response
   /\ is_number (field response "code") = true
   /\ handleError demo_platform error = ([], Rejected (AVError (JNum (-1)) JUndef))
   /\ handleError demo_platform error
      <> ([], Rejected (AVError (field response "code") (field response "error"))))
  /\ (let error := JObj (<["code" := JStr "ECONNRESET"]>
                           {[ "message" := JStr "socket hang up" ]}) in
      handleError demo_platform error
        = ([], Rejected (AVError (JStr "ECONNRESET") (JStr "socket hang up")))
      /\ is_number (JStr "ECONNRESET") = false).
Proof.
  split.
  - cbv zeta. split; [reflexivity|]. split; [reflexivity|]. split; [reflexivity|].
    intros H. vm_compute in H. discriminate H.
  - cbv zeta. split; reflexivity.
Qed.

(** C2, amended. [handleError] never throws: for every raw error it returns
    a rejected promise. For a raw error that is neither [undefined] nor
    [null], first match wins: (1) if the error has a truthy [response] whose
    [code] is truthy (a code of 0 does not count, a non-empty string does),
    the rejection carries that response's [code] and [error]; (2) else if the
    error has a truthy [responseText], it is parsed as JSON, and when the
    parse yields a value other than [null] the rejection carries the [code]
    and [error] of that value; (3) else, on a parse failure or without such a
    text, the rejection carries [error.code || -1] and
    [error.message || error.responseText]. The code is handed on as found; it
    is a number only if the field it was taken from holds one. *)
Theorem handleError_precedence (W : Platform) (error : jsval) :
  (exists e, handleError W error = ([], Rejected e))
  /\ (nullish error = false ->
      let response := field error "response" in
      let responseText := field error "responseText" in
      (truthy response = true -> truthy (field response "code") = true ->
       handleError W error
         = ([], Rejected (AVError (field response "code") (field response "error"))))
      /\ (truthy response && truthy (field response "code") = false ->
          truthy responseText = true ->
          forall parsed, JSON_parse W responseText = Some parsed ->
          nullish parsed = false ->
          handleError W error
            = ([], Rejected (AVError (field parsed "code") (field parsed "error"))))
      /\ (truthy response && truthy (field response "code") = false ->
          truthy responseText = false \/ JSON_parse W responseText = None ->
          handleError W error
            = ([], Rejected (AVError (js_or (field error "code") (JNum (-1)))
                                     (js_or (field error "message") responseText))))).
Proof.
  split; [apply handleError_rejects|].
  intros Herr response responseText. subst response responseText.
  rewrite (handleError_unfold W error Herr). cbv zeta.
  split; [|split].
  - intros Hresp Hcode. rewrite Hresp, Hcode. cbn [andb].
    apply handleError_from. now apply truthy_not_nullish.
  - intros Hno Htext parsed Hparse Hparsed.
    rewrite Hno, Htext, Hparse. now apply handleError_from.
  - intros Hno Hfall. rewrite Hno.
    assert (Hsel :
      (if truthy (field error "responseText")
       then match JSON_parse W (field error "responseText") with
            | Some parsed => parsed
            | None => JObj (<["code" := js_or (field error "code") (JNum (-1))]>
                (<["error" := js_or (field error "message") (field error "responseText")]> ∅))
            end
       else JObj (<["code" := js_or (field error "code") (JNum (-1))]>
                (<["error" := js_or (field error "message") (field error "responseText")]> ∅)))
      = JObj (<["code" := js_or (field error "code") (JNum (-1))]>
                (<["error" := js_or (field error "message") (field error "responseText")]> ∅))).
    { destruct Hfall as [-> | ->]; [reflexivity|].
      now destruct (truthy (field error "responseText")). }
    rewrite Hsel. rewrite handleError_from by reflexivity.
    unfold field, get_prop. now simplify_map_eq.
Qed.

Lemma handleError_precedence_witness :
  handleError demo_platform
    (JObj {[ "response" := JObj (<["code" := JNum 1]> {[ "error" := JStr "Internal" ]}) ]})
    = ([], Rejected (AVError (JNum 1) (JStr "Internal")))
  /\ handleError demo_platform (JObj {[ "responseText" := JStr sample_body ]})
     = ([], Rejected (AVError (JNum 101) (JStr "Object not found.")))
  /\ handleError demo_platform (JObj {[ "message" := JStr "timeout" ]})
     = ([], Rejected (AVError (JNum (-1)) (JStr "timeout"))).
Proof.
  split; [|split].
  - destruct (handleError_precedence demo_platform
      (JObj {[ "response" := JObj (<["code" := JNum 1]> {[ "error" := JStr "Internal" ]}) ]}))
      as [_ H].
    destruct (H eq_refl) as (H1 & _ & _). exact (H1 eq_refl eq_refl).
  - destruct (handleError_precedence demo_platform
      (JObj {[ "responseText" := JStr sample_body ]})) as [_ H].
    destruct (H eq_refl) as (_ & H2 & _).
    exact (H2 eq_refl eq_refl _ eq_refl eq_refl).
  - destruct (handleError_precedence demo_platform
      (JObj {[ "message" := JStr "timeout" ]})) as [_ H].
    destruct (H eq_refl) as (_ & _ & H3).
    exact (H3 eq_refl (or_introl eq_refl)).
Defined.

(** ** The dispatcher *)

Lemma request_uninitialized (W : Platform) (AV : AVGlobal) (d : RequestDescriptor) :
  initialized AV = false ->
  request W AV d = ([], Throw (JsError "Not initialized")).
Proof. intros H. unfold request. fold (initialized AV). now rewrite H. Qed.

Lemma request_no_url (W : Platform) (AV : AVGlobal) (d : RequestDescriptor) (e : exn) :
  initialized AV = true ->
  createApiUrl AV (service d) (version d) (path d) = Throw e ->
  request W AV d = ([EvRefresh], Throw e).
Proof.
  intros Hinit Hurl. unfold request. fold (initialized AV).
  rewrite Hinit, Hurl. reflexivity.
Qed.

(** A call that passes both checks: one refresh, the headers, one transport
    call, and the normalizer on the failure branch. *)
Lemma request_run (W : Platform) (AV : AVGlobal) (d : RequestDescriptor) (url : string) :
  initialized AV = true ->
  createApiUrl AV (service d) (version d) (path d) = Normal url ->
  exists w h evs h',
    setHeaders_sync W AV (default empty_authOptions (authOptions d)) false = (w, Normal h)
    /\ setHeaders_async W AV (default empty_authOptions (authOptions d)) h
       = (evs, Resolved h')
    /\ let args := {| ajax_method := method d; ajax_url := url; ajax_query := query d;
                      ajax_data := match data d with JUndef => JObj ∅ | v => v end;
                      ajax_headers := h' |} in
       request W AV d
       = (EvRefresh :: w,
          Normal (evs ++ [EvAjax args],
                  match ajax W args with
                  | Resolved v => Resolved v
                  | Rejected e => snd (handleError W e)
                  end)).
Proof.
  intros Hinit Hurl.
  set (ao := default empty_authOptions (authOptions d)).
  destruct (setHeaders_sync_run W AV ao false) as (w & h & Hsync & _ & _).
  destruct (setHeaders_async_run W AV ao h) as (evs & h' & Hasync & _ & _).
  exists w, h, evs, h'. split; [exact Hsync|]. split; [exact Hasync|].
  cbv zeta. unfold request. fold (initialized AV). rewrite Hinit, Hurl.
  unfold setHeaders. fold ao. rewrite Hsync.
  unfold bind, emit, lift, ret. cbn [negb app]. rewrite Hasync.
  unfold p_then, p_catch. rewrite !app_nil_r.
  set (args := {| ajax_method := method d; ajax_url := url; ajax_query := query d;
                  ajax_data := match data d with JUndef => JObj ∅ | v => v end;
                  ajax_headers := h' |}).
  destruct (ajax W args) as [v|e]; [reflexivity|].
  destruct (handleError_rejects W e) as [x ->]. reflexivity.
Qed.

(** A run of the whole chain: the transport fails with a server error, and
    the promise of [request] is rejected with the normalized error. *)
Example request_normalizes_failure :
  exists a,
    request failing_platform demo_AV
      {| service := None; version := None; method := Some "GET";
         path := Some "/classes/Todo/42"; query := JUndef; data := JUndef;
         authOptions := None |}
    = ([EvRefresh],
       Normal ([EvCurrentAsync; EvAjax a],
               Rejected (AVError (JNum 101) (JStr "Object not found."))))
    /\ ajax_url a = "https://x.example/1.1/classes/Todo/42"
    /\ ajax_data a = JObj ∅.
Proof. eexists. split; [reflexivity|]. split; reflexivity. Qed.

(** C1. If the application identifier is unset, or both the application key
    and the master key are unset, [request] throws the error
    ["Not initialized"] itself: nothing has happened before, neither the
    refresh of the router nor a call to the transport, and no promise is
    returned that could carry the error as a rejection. *)
Theorem request_requires_credentials (W : Platform) (AV : AVGlobal) (d : RequestDescriptor) :
  applicationId AV = None \/ (applicationKey AV = None /\ masterKey AV = None) ->
  request W AV d = ([], Throw (JsError "Not initialized"))
  /\ all_events (request W AV d) = [].
Proof.
  intros H.
  assert (Hreq : request W AV d = ([], Throw (JsError "Not initialized"))).
  { apply request_uninitialized. unfold initialized.
    destruct H as [-> | [-> ->]]; [reflexivity|]. apply andb_false_r. }
  split; [exact Hreq|]. now rewrite Hreq.
Qed.

Lemma request_requires_credentials_witness :
  request demo_platform unconfigured_AV
    {| service := None; version := None; method := Some "GET"; path := Some "/date";
       query := JUndef; data := JUndef; authOptions := None |}
  = ([], Throw (JsError "Not initialized")).
Proof.
  apply (request_requires_credentials demo_platform unconfigured_AV).
  left. reflexivity.
Defined.

(** C3. The decision to use the master key follows the three-way
    precedence: a boolean [useMasterKey] in the AuthOptions is used, so that
    an explicit [false] overrides a global [true]; otherwise a boolean
    [useMasterKey] in the global configuration is used; otherwise the
    master key is not used. *)
Theorem useMasterKey_precedence (AV : AVGlobal) (authOptions : AuthOptions.t) :
  (forall b, AuthOptions.useMasterKey authOptions = JBool b ->
             resolve_useMasterKey AV authOptions = b)
  /\ ((forall b, AuthOptions.useMasterKey authOptions <> JBool b) ->
      forall b, Config.useMasterKey (_config AV) = JBool b ->
                resolve_useMasterKey AV authOptions = b)
  /\ ((forall b, AuthOptions.useMasterKey authOptions <> JBool b) ->
      (forall b, Config.useMasterKey (_config AV) <> JBool b) ->
      resolve_useMasterKey AV authOptions = false).
Proof.
  unfold resolve_useMasterKey. split; [|split].
  - intros b ->. reflexivity.
  - intros Hao b Hcfg.
    destruct (AuthOptions.useMasterKey authOptions); try (now rewrite Hcfg).
    now contradiction (Hao b0).
  - intros Hao Hcfg.
    destruct (AuthOptions.useMasterKey authOptions) as [| |b| | | | |];
      try (now contradiction (Hao b));
      destruct (Config.useMasterKey (_config AV)) as [| |b'| | | | |];
      try (now contradiction (Hcfg b')); reflexivity.
Qed.

Lemma useMasterKey_precedence_witness :
  resolve_useMasterKey master_default_AV (AuthOptions.mk (JBool false) None) = false
  /\ resolve_useMasterKey master_default_AV (AuthOptions.mk (JStr "yes") None) = true
  /\ resolve_useMasterKey demo_AV (AuthOptions.mk (JNum 1) None) = false.
Proof.
  split; [|split].
  - destruct (useMasterKey_precedence master_default_AV (AuthOptions.mk (JBool false) None))
      as (H1 & _ & _).
    exact (H1 false eq_refl).
  - destruct (useMasterKey_precedence master_default_AV (AuthOptions.mk (JStr "yes") None))
      as (_ & H2 & _).
    apply H2; [discriminate | reflexivity].
  - destruct (useMasterKey_precedence demo_AV (AuthOptions.mk (JNum 1) None))
      as (_ & _ & H3).
    apply H3; discriminate.
Defined.

Lemma setHeaders_async_events (W : Platform) (AV : AVGlobal) (ao : AuthOptions.t)
    (h : gmap string jsval) (ev : event) :
  ev ∈ fst (setHeaders_async W AV ao h) -> ev = EvCurrentAsync.
Proof.
  unfold setHeaders_async.
  destruct (truthy (js (getSessionToken ao))), (Config.disableCurrentUser (_config AV));
    cbn [negb fst]; intros Hev.
  all: try (now apply elem_of_nil in Hev).
  now apply list_elem_of_singleton in Hev.
Qed.

(** The transport calls of [request]: what each one is given. *)
Lemma request_ajax_inv (W : Platform) (AV : AVGlobal) (d : RequestDescriptor) (a : AjaxArgs) :
  EvAjax a ∈ all_events (request W AV d) ->
  initialized AV = true
  /\ createApiUrl AV (service d) (version d) (path d) = Normal (ajax_url a)
  /\ ajax_method a = method d
  /\ ajax_query a = query d
  /\ ajax_data a = match data d with JUndef => JObj ∅ | v => v end
  /\ ajax_headers a !! "X-LC-Key" = Some (key_header AV (authOptions d))
  /\ ajax_headers a !! "X-LC-Sign" = None.
Proof.
  intros Ha.
  destruct (initialized AV) eqn:Hinit.
  2: { rewrite (request_uninitialized W AV d Hinit) in Ha. now apply elem_of_nil in Ha. }
  destruct (createApiUrl AV (service d) (version d) (path d)) as [url|e] eqn:Hurl.
  2: { rewrite (request_no_url W AV d e Hinit Hurl) in Ha. cbn in Ha.
       apply list_elem_of_singleton in Ha. discriminate. }
  destruct (request_run W AV d url Hinit Hurl) as (w & h & evs & h' & Hsync & Hasync & Hreq).
  cbv zeta in Hreq. rewrite Hreq in Ha. cbn [all_events fst] in Ha.
  destruct (setHeaders_sync_plain W AV (default empty_authOptions (authOptions d)))
    as (w0 & h0 & Hsync0 & Hw & Hkey & Hsign & _).
  rewrite Hsync in Hsync0. injection Hsync0 as <- <-.
  destruct (setHeaders_async_run W AV (default empty_authOptions (authOptions d)) h)
    as (evs0 & h0 & Hasync0 & Hkeep & _).
  rewrite Hasync in Hasync0. injection Hasync0 as <- <-.
  apply elem_of_cons in Ha as [Ha|Ha]; [discriminate|].
  apply elem_of_app in Ha as [Ha|Ha]; [apply Hw in Ha; discriminate|].
  apply elem_of_app in Ha as [Ha|Ha].
  { pose proof (setHeaders_async_events W AV
                  (default empty_authOptions (authOptions d)) h (EvAjax a)) as Hev.
    rewrite Hasync in Hev. specialize (Hev Ha). discriminate. }
  apply list_elem_of_singleton in Ha. injection Ha as ->. cbn.
  rewrite !Hkeep by discriminate. repeat split; try reflexivity; [|exact Hsign].
  rewrite Hkey. unfold key_header. now destruct (authOptions d).
Qed.

Lemma request_ajax_exists (W : Platform) (AV : AVGlobal) (d : RequestDescriptor) (url : string) :
  initialized AV = true ->
  createApiUrl AV (service d) (version d) (path d) = Normal url ->
  exists a, EvAjax a ∈ all_events (request W AV d) /\ ajax_url a = url.
Proof.
  intros Hinit Hurl.
  destruct (request_run W AV d url Hinit Hurl) as (w & h & evs & h' & _ & _ & Hreq).
  cbv zeta in Hreq. rewrite Hreq. cbn [all_events fst].
  eexists. split.
  - apply elem_of_cons. right. apply elem_of_app. right.
    apply elem_of_app. right. apply list_elem_of_singleton. reflexivity.
  - reflexivity.
Qed.

(** C4. Every transport call made by [request] carries the plain key header
    ["X-LC-Key"], holding the master key followed by [",master"] when the
    master key is requested and set, and the application key otherwise, and
    carries no signature header ["X-LC-Sign"]. A call that passes the
    credential check and finds its service URL makes such a transport
    call. *)
Theorem request_sends_plain_key (W : Platform) (AV : AVGlobal) (d : RequestDescriptor) :
  (forall a, EvAjax a ∈ all_events (request W AV d) ->
     ajax_headers a !! "X-LC-Key" = Some (key_header AV (authOptions d))
     /\ ajax_headers a !! "X-LC-Sign" = None)
  /\ (forall url, initialized AV = true ->
        createApiUrl AV (service d) (version d) (path d) = Normal url ->
        exists a, EvAjax a ∈ all_events (request W AV d) /\ ajax_url a = url).
Proof.
  split.
  - intros a Ha. apply request_ajax_inv in Ha. tauto.
  - intros url. apply request_ajax_exists.
Qed.

Lemma request_sends_plain_key_witness :
  exists a,
    EvAjax a ∈ all_events (request demo_platform master_default_AV
      {| service := None; version := None; method := Some "GET"; path := Some "/date";
         query := JUndef; data := JUndef; authOptions := None |})
    /\ ajax_url a = "https://x.example/1.1/date"
    /\ ajax_headers a !! "X-LC-Key" = Some (JStr "master-key,master")
    /\ ajax_headers a !! "X-LC-Sign" = None.
Proof.
  destruct (request_sends_plain_key demo_platform master_default_AV
    {| service := None; version := None; method := Some "GET"; path := Some "/date";
       query := JUndef; data := JUndef; authOptions := None |}) as [Hall Hex].
  destruct (Hex "https://x.example/1.1/date" eq_refl eq_refl) as (a & Ha & Hu).
  exists a. split; [exact Ha|]. split; [exact Hu|]. exact (Hall a Ha).
Defined.

(** ** The legacy adapter *)

Lemma toLowerCase_get_truthy (m : string) : toLowerCase m = "get" -> truthy (JStr m) = true.
Proof. destruct m; [discriminate | reflexivity]. Qed.

Lemma legacy_path_eq (route className objectId : option string) :
  (let path := "" in
   let path := if truthy (js route) then path +:+ "/" +:+ template route else path in
   let path := if truthy (js className) then path +:+ "/" +:+ template className else path in
   if truthy (js objectId) then path +:+ "/" +:+ template objectId else path)
  = legacy_path route className objectId.
Proof.
  unfold legacy_path, segment.
  destruct route as [[|c1 r]|], className as [[|c2 n]|], objectId as [[|c3 o]|];
    cbn [js truthy template]; cbv zeta; rewrite ?append_nil_r;
    rewrite ?append_assoc; reflexivity.
Qed.

(** The adapter on a body that passes the reserved-key check. *)
Lemma _request_adapts (W : Platform) (AV : AVGlobal)
    (route className objectId method : option string)
    (d : gmap string jsval) (ao : option AuthOptions.t) (query : jsval) :
  truthy (field (JObj d) "_fetchWhenSave") = false ->
  truthy (field (JObj d) "_where") = false ->
  _request W AV route className objectId method (JObj d) ao query
  = request W AV
      (if truthy (js method) && bool_decide (toLowerCase (template method) = "get")
       then {| service := None; version := None; method := method;
               path := Some (legacy_path route className objectId);
               query := JObj (d ∪ allKeys query); data := JNull; authOptions := ao |}
       else {| service := None; version := None; method := method;
               path := Some (legacy_path route className objectId);
               query := query; data := JObj d; authOptions := ao |}).
Proof.
  intros Hf Hw. unfold _request. cbv zeta.
  rewrite legacy_path_eq. cbn [truthy].
  unfold field in Hf, Hw. cbn [get_prop] in *.
  unfold lift, bind. rewrite Hf, Hw.
  unfold extend. rewrite (right_id_L ∅ (∪)). cbn [allKeys].
  destruct (truthy (js method) && bool_decide (toLowerCase (template method) = "get"));
    destruct (request W AV _); reflexivity.
Qed.

Lemma _request_GET (W : Platform) (AV : AVGlobal)
    (route className objectId : option string) (m : string)
    (d : gmap string jsval) (ao : option AuthOptions.t) (query : jsval) :
  case_insensitive_eq m "GET" ->
  truthy (field (JObj d) "_fetchWhenSave") = false ->
  truthy (field (JObj d) "_where") = false ->
  _request W AV route className objectId (Some m) (JObj d) ao query
  = request W AV {| service := None; version := None; method := Some m;
                    path := Some (legacy_path route className objectId);
                    query := JObj (d ∪ allKeys query); data := JNull;
                    authOptions := ao |}.
Proof.
  intros Hm Hf Hw. rewrite _request_adapts by assumption.
  unfold case_insensitive_eq in Hm. cbn in Hm. cbn [js template].
  rewrite (toLowerCase_get_truthy m Hm). rewrite bool_decide_eq_true_2 by exact Hm.
  reflexivity.
Qed.

Lemma _request_other (W : Platform) (AV : AVGlobal)
    (route className objectId method : option string)
    (d : gmap string jsval) (ao : option AuthOptions.t) (query : jsval) :
  (forall m, method = Some m -> ~ case_insensitive_eq m "GET") ->
  truthy (field (JObj d) "_fetchWhenSave") = false ->
  truthy (field (JObj d) "_where") = false ->
  _request W AV route className objectId method (JObj d) ao query
  = request W AV {| service := None; version := None; method := method;
                    path := Some (legacy_path route className objectId);
                    query := query; data := JObj d; authOptions := ao |}.
Proof.
  intros Hm Hf Hw. rewrite _request_adapts by assumption.
  destruct method as [m|]; cbn [js template truthy andb]; [|reflexivity].
  rewrite bool_decide_eq_false_2 by exact (Hm m eq_refl).
  now rewrite andb_false_r.
Qed.

(** The spellings of a method that equal ["GET"] up to case. *)
Lemma case_insensitive_GET (m : string) :
  case_insensitive_eq m "GET"
  <-> m ∈ ["GET"; "GEt"; "GeT"; "Get"; "gET"; "gEt"; "geT"; "get"].
Proof.
  assert (Hc : forall (c : ascii) (l : ascii),
             lower_ascii c = l ->
             ((l = "g" -> c = "g" \/ c = "G")
              /\ (l = "e" -> c = "e" \/ c = "E")
              /\ (l = "t" -> c = "t" \/ c = "T"))%char).
  { intros c l <-. destruct c as [[] [] [] [] [] [] [] []];
      (split; [|split]); intros H; vm_compute in H; try discriminate; auto. }
  unfold case_insensitive_eq. split.
  - cbn. intros H.
    destruct m as [|c1 [|c2 [|c3 [|c4 r]]]]; try discriminate.
    cbn in H. injection H as H1 H2 H3.
    destruct (Hc c1 _ H1) as (G & _ & _), (Hc c2 _ H2) as (_ & E & _),
      (Hc c3 _ H3) as (_ & _ & T).
    destruct (G eq_refl) as [-> | ->], (E eq_refl) as [-> | ->], (T eq_refl) as [-> | ->];
      repeat first [ apply elem_of_cons; left; reflexivity | apply elem_of_cons; right ].
  - intros H. repeat (apply elem_of_cons in H as [-> | H]; [reflexivity|]).
    now apply elem_of_nil in H.
Qed.

(** C5. In the legacy adapter, for a body [d] that passes the reserved-key
    check: when the method equals ["GET"] up to case, [request] is called
    with the whole of [d] merged into the query and with the body [null];
    for any other method, or none, it is called with the body and the query
    it was given. *)
Theorem legacy_GET_merges_data (W : Platform) (AV : AVGlobal)
    (route className objectId method : option string)
    (d q : gmap string jsval) (ao : option AuthOptions.t) :
  truthy (field (JObj d) "_fetchWhenSave") = false ->
  truthy (field (JObj d) "_where") = false ->
  ((exists m, method = Some m /\ case_insensitive_eq m "GET") ->
   _request W AV route className objectId method (JObj d) ao (JObj q)
   = request W AV {| service := None; version := None; method := method;
                     path := Some (legacy_path route className objectId);
                     query := JObj (d ∪ q); data := JNull; authOptions := ao |}
   /\ (forall k v, d !! k = Some v -> (d ∪ q) !! k = Some v)
   /\ (forall k, d !! k = None -> (d ∪ q) !! k = q !! k))
  /\ ((forall m, method = Some m -> ~ case_insensitive_eq m "GET") ->
      _request W AV route className objectId method (JObj d) ao (JObj q)
      = request W AV {| service := None; version := None; method := method;
                        path := Some (legacy_path route className objectId);
                        query := JObj q; data := JObj d; authOptions := ao |}).
Proof.
  intros Hf Hw. split.
  - intros (m & -> & Hm). split; [now apply _request_GET|]. split.
    + intros k v Hk. now apply lookup_union_Some_l.
    + intros k Hk. now apply lookup_union_r.
  - intros Hm. now apply _request_other.
Qed.

Lemma legacy_GET_merges_data_witness :
  _request demo_platform demo_AV (Some "classes") (Some "Todo") None (Some "GET")
    (JObj {[ "a" := JNum 1 ]}) None (JObj {[ "b" := JNum 2 ]})
  = request demo_platform demo_AV
      {| service := None; version := None; method := Some "GET";
         path := Some "/classes/Todo";
         query := JObj (<["a" := JNum 1]> {[ "b" := JNum 2 ]}); data := JNull;
         authOptions := None |}
  /\ _request demo_platform demo_AV (Some "classes") (Some "Todo") None (Some "POST")
       (JObj {[ "a" := JNum 1 ]}) None (JObj {[ "b" := JNum 2 ]})
     = request demo_platform demo_AV
         {| service := None; version := None; method := Some "POST";
            path := Some "/classes/Todo";
            query := JObj {[ "b" := JNum 2 ]}; data := JObj {[ "a" := JNum 1 ]};
            authOptions := None |}.
Proof.
  assert (Hf : truthy (field (JObj {[ "a" := JNum 1 ]}) "_fetchWhenSave") = false)
    by reflexivity.
  assert (Hw : truthy (field (JObj {[ "a" := JNum 1 ]}) "_where") = false)
    by reflexivity.
  split.
  - destruct (legacy_GET_merges_data demo_platform demo_AV
                (Some "classes") (Some "Todo") None (Some "GET")
                {[ "a" := JNum 1 ]} {[ "b" := JNum 2 ]} None Hf Hw) as [H _].
    destruct H as [H _]; [|exact H].
    exists "GET". split; reflexivity.
  - destruct (legacy_GET_merges_data demo_platform demo_AV
                (Some "classes") (Some "Todo") None (Some "POST")
                {[ "a" := JNum 1 ]} {[ "b" := JNum 2 ]} None Hf Hw) as [_ H].
    apply H. intros m [= <-]. discriminate.
Defined.

(** C6. In the GET adaptation of the legacy adapter, a key present in both
    the body and the query that was passed in takes its value from the
    body; the transport then receives that merged query. *)
Theorem legacy_GET_data_wins (W : Platform) (AV : AVGlobal)
    (route className objectId : option string) (m : string)
    (d q : gmap string jsval) (ao : option AuthOptions.t) (k : string) (vd vq : jsval) :
  case_insensitive_eq m "GET" ->
  truthy (field (JObj d) "_fetchWhenSave") = false ->
  truthy (field (JObj d) "_where") = false ->
  d !! k = Some vd ->
  q !! k = Some vq ->
  exists merged,
    _request W AV route className objectId (Some m) (JObj d) ao (JObj q)
    = request W AV {| service := None; version := None; method := Some m;
                      path := Some (legacy_path route className objectId);
                      query := JObj merged; data := JNull; authOptions := ao |}
    /\ merged !! k = Some vd
    /\ forall a,
         EvAjax a ∈ all_events
           (_request W AV route className objectId (Some m) (JObj d) ao (JObj q)) ->
         ajax_query a = JObj merged.
Proof.
  intros Hm Hf Hw Hd Hq. exists (d ∪ q).
  pose proof (_request_GET W AV route className objectId m d ao (JObj q) Hm Hf Hw) as Hreq.
  cbn [allKeys] in Hreq. split; [exact Hreq|]. split.
  - now apply lookup_union_Some_l.
  - intros a Ha. rewrite Hreq in Ha. apply request_ajax_inv in Ha.
    now destruct Ha as (_ & _ & _ & Hquery & _).
Qed.

Lemma legacy_GET_data_wins_witness :
  exists merged,
    _request demo_platform demo_AV (Some "classes") (Some "Todo") None (Some "get")
      (JObj {[ "limit" := JNum 10 ]}) None
      (JObj (<["limit" := JNum 5]> {[ "skip" := JNum 20 ]}))
    = request demo_platform demo_AV
        {| service := None; version := None; method := Some "get";
           path := Some (legacy_path (Some "classes") (Some "Todo") None);
           query := JObj merged; data := JNull; authOptions := None |}
    /\ merged !! "limit" = Some (JNum 10).
Proof.
  assert (Hm : case_insensitive_eq "get" "GET") by reflexivity.
  assert (Hf : truthy (field (JObj {[ "limit" := JNum 10 ]}) "_fetchWhenSave") = false)
    by reflexivity.
  assert (Hw : truthy (field (JObj {[ "limit" := JNum 10 ]}) "_where") = false)
    by reflexivity.
  assert (Hd : ({[ "limit" := JNum 10 ]} : gmap string jsval) !! "limit" = Some (JNum 10))
    by reflexivity.
  assert (Hq : (<["limit" := JNum 5]> {[ "skip" := JNum 20 ]} : gmap string jsval) !! "limit"
               = Some (JNum 5)) by reflexivity.
  destruct (legacy_GET_data_wins demo_platform demo_AV
              (Some "classes") (Some "Todo") None "get"
              {[ "limit" := JNum 10 ]} (<["limit" := JNum 5]> {[ "skip" := JNum 20 ]})
              None "limit" (JNum 10) (JNum 5) Hm Hf Hw Hd Hq)
    as (merged & Hreq & Hk & _).
  exists merged. split; [exact Hreq | exact Hk].
Defined.

(** A body that holds the reserved key with a falsy value is not rejected:
    nothing is thrown, and the call goes through to the transport, reserved
    key included. *)
Lemma legacy_falsy_reserved_key_passes :
  let d : gmap string jsval := {[ "_fetchWhenSave" := JBool false ]} in
  let call := _request demo_platform demo_AV (Some "classes") (Some "Todo") None
                (Some "POST") (JObj d) None JUndef in
  d !! "_fetchWhenSave" = Some (JBool false)
  /\ (forall e, call <> ([], Throw e))
  /\ exists a,
       all_events call = [EvRefresh; EvCurrentAsync; EvAjax a]
       /\ ajax_data a = JObj d.
Proof.
  cbv zeta. split; [reflexivity|]. split.
  - intros e H. vm_compute in H. discriminate H.
  - eexists. split; reflexivity.
Qed.

(** C7, amended. For every call through [_request] and every method,
    including GET and none: if the body holds [_fetchWhenSave] or [_where]
    with a truthy value, the adapter throws at once, naming the key; nothing
    has happened before, and [request] is not reached. *)
Theorem legacy_rejects_reserved_keys (W : Platform) (AV : AVGlobal)
    (route className objectId method : option string)
    (d : gmap string jsval) (ao : option AuthOptions.t) (query : jsval) :
  truthy (field (JObj d) "_fetchWhenSave") = true
  \/ truthy (field (JObj d) "_where") = true ->
  _request W AV route className objectId method (JObj d) ao query
  = ([], Throw (JsError (if truthy (field (JObj d) "_fetchWhenSave")
                         then "_fetchWhenSave should be in the query"
                         else "_where should be in the query")))
  /\ all_events (_request W AV route className objectId method (JObj d) ao query) = [].
Proof.
  intros H.
  assert (Hreq : _request W AV route className objectId method (JObj d) ao query
    = ([], Throw (JsError (if truthy (field (JObj d) "_fetchWhenSave")
                           then "_fetchWhenSave should be in the query"
                           else "_where should be in the query")))).
  { unfold _request. cbv zeta. rewrite legacy_path_eq. cbn [truthy].
    unfold field in *. cbn [get_prop] in *. unfold lift, bind, throw.
    destruct (truthy (default JUndef (d !! "_fetchWhenSave"))); [reflexivity|].
    destruct H as [H|H]; [discriminate|]. now rewrite H. }
  split; [exact Hreq|]. now rewrite Hreq.
Qed.

Lemma legacy_rejects_reserved_keys_witness :
  _request demo_platform demo_AV (Some "classes") (Some "Todo") None (Some "GET")
    (JObj {[ "_where" := JStr "{}" ]}) None JUndef
  = ([], Throw (JsError "_where should be in the query")).
Proof.
  assert (H : truthy (field (JObj {[ "_where" := JStr "{}" ]}) "_fetchWhenSave") = true
              \/ truthy (field (JObj {[ "_where" := JStr "{}" ]}) "_where") = true)
    by (right; reflexivity).
  destruct (legacy_rejects_reserved_keys demo_platform demo_AV
              (Some "classes") (Some "Todo") None (Some "GET")
              {[ "_where" := JStr "{}" ]} None JUndef H) as [Hreq _].
  exact Hreq.
Defined.

(** ** More on the header builder *)

(** Every header the synchronous part sets, whatever the signing flag. *)
Lemma setHeaders_sync_lookup (W : Platform) (AV : AVGlobal) (ao : AuthOptions.t)
    (signKey : bool) :
  exists w h,
    setHeaders_sync W AV ao signKey = (w, Normal h)
    /\ w = (if resolve_useMasterKey AV ao && negb (truthy (js (masterKey AV)))
            then [EvWarn "masterKey is not set, fall back to use appKey"] else [])
    /\ h !! "X-LC-Id" = Some (js (applicationId AV))
    /\ h !! "Content-Type" = Some (JStr "application/json;charset=UTF-8")
    /\ h !! "X-LC-Key"
       = (if signKey then None else Some (key_header AV (Some ao)))
    /\ h !! "X-LC-Sign"
       = (if signKey then Some (JStr (sign_header W AV (Some ao))) else None)
    /\ h !! "X-LC-Hook-Key"
       = (if truthy (js (hookKey AV)) then Some (js (hookKey AV)) else None)
    /\ h !! "X-LC-Prod"
       = match Config.production (_config AV) with
         | Some b => Some (JStr (String_of_bool b))
         | None => None
         end
    /\ h !! "User-Agent"
       = (if CLIENT_PLATFORM W then None else Some (js (Config.userAgent (_config AV))))
    /\ h !! "X-LC-UA"
       = (if CLIENT_PLATFORM W then Some (js (Config.userAgent (_config AV))) else None)
    /\ h !! "X-LC-Session" = None.
Proof.
  unfold setHeaders_sync, setAppId, key_header, sign_header.
  change (default empty_authOptions (Some ao)) with ao.
  destruct (resolve_useMasterKey AV ao), (truthy (js (masterKey AV))), signKey;
    cbn [andb negb]; rewrite ?bind_ret.
  all: do 2 eexists; (split; [reflexivity|]); (split; [reflexivity|]).
  all: destruct (truthy (js (hookKey AV))), (Config.production (_config AV)),
         (CLIENT_PLATFORM W); cbn [negb].
  all: repeat split;
         repeat first [ rewrite lookup_insert_eq
                      | rewrite lookup_insert_ne by discriminate
                      | rewrite lookup_empty ]; reflexivity.
Qed.

Lemma key_header_default (AV : AVGlobal) (authOptions : option AuthOptions.t) :
  key_header AV (Some (default empty_authOptions authOptions)) = key_header AV authOptions.
Proof. now destruct authOptions. Qed.

Lemma sign_header_default (W : Platform) (AV : AVGlobal) (authOptions : option AuthOptions.t) :
  sign_header W AV (Some (default empty_authOptions authOptions))
  = sign_header W AV authOptions.
Proof. now destruct authOptions. Qed.

(** [setHeaders] as a whole: the synchronous headers, then the callback. *)
Lemma setHeaders_run (W : Platform) (AV : AVGlobal) (authOptions : option AuthOptions.t)
    (signKey : bool) (w : list event) (h : gmap string jsval) :
  setHeaders_sync W AV (default empty_authOptions authOptions) signKey = (w, Normal h) ->
  setHeaders W AV authOptions signKey
  = (w, Normal (setHeaders_async W AV (default empty_authOptions authOptions) h)).
Proof.
  intros Hsync. unfold setHeaders. cbv zeta. rewrite Hsync.
  unfold bind, ret. now rewrite app_nil_r.
Qed.

Lemma Number_toString_no_letter (n : Z) : occurs "m" (Number_toString n) = false.
Proof.
  assert (Hd : forall d, occurs "m" (NilEmpty.string_of_uint d) = false)
    by (induction d; simpl; auto).
  unfold Number_toString.
  destruct (Z.to_int n) as [d|d]; simpl; destruct d; simpl; auto.
Qed.

(** Without the flag the signature never ends in the marker. *)
Lemma sign_plain_no_marker (W : Platform) (key : option string) (p : string) :
  sign W key false <> p +:+ ",master".
Proof.
  unfold sign. cbv zeta. intros H.
  change (p +:+ ",master") with (p +:+ String "," "master") in H.
  change (md5 W (num_plus (Date_getTime W) key) +:+ "," +:+ Number_toString (Date_getTime W))
    with (md5 W (num_plus (Date_getTime W) key)
          +:+ String "," (Number_toString (Date_getTime W))) in H.
  apply split_last_sep in H as [_ H]; [|apply Number_toString_no_comma|reflexivity].
  pose proof (Number_toString_no_letter (Date_getTime W)) as Hm.
  rewrite H in Hm. discriminate.
Qed.

Lemma sign_master_marker (W : Platform) (key : option string) :
  exists p, sign W key true = p +:+ ",master".
Proof.
  unfold sign. cbv zeta. eexists. rewrite <- !append_assoc. reflexivity.
Qed.

(** The authentication header in the headers [setHeaders] resolves with. *)
Lemma setHeaders_auth (W : Platform) (AV : AVGlobal)
    (authOptions : option AuthOptions.t) (signKey : bool) :
  exists w evs h',
    setHeaders W AV authOptions signKey = (w, Normal (evs, Resolved h'))
    /\ if signKey
       then h' !! "X-LC-Sign" = Some (JStr (sign_header W AV authOptions))
            /\ h' !! "X-LC-Key" = None
       else h' !! "X-LC-Key" = Some (key_header AV authOptions)
            /\ h' !! "X-LC-Sign" = None.
Proof.
  set (ao := default empty_authOptions authOptions).
  destruct (setHeaders_sync_lookup W AV ao signKey)
    as (w & h & Hsync & _ & _ & _ & Hkey & Hsign & _).
  destruct (setHeaders_async_run W AV ao h) as (evs & h' & Hasync & Hkeep & _).
  exists w, evs, h'. split.
  - rewrite (setHeaders_run W AV authOptions signKey w h Hsync). fold ao. now rewrite Hasync.
  - rewrite !Hkeep by discriminate. rewrite Hkey, Hsign. subst ao.
    rewrite key_header_default, sign_header_default. now destruct signKey.
Qed.

(** X1. Whatever the configuration and the AuthOptions, the headers that
    [setHeaders] resolves with hold exactly one of the two authentication
    headers, and the flag alone decides which: with the flag the signature
    header, computed by [sign] from the key in use, and no key header;
    without it the plain key header and no signature header. *)
Theorem setHeaders_one_auth_header (W : Platform) (AV : AVGlobal)
    (authOptions : option AuthOptions.t) (signKey : bool) :
  exists w evs h',
    setHeaders W AV authOptions signKey = (w, Normal (evs, Resolved h'))
    /\ if signKey
       then h' !! "X-LC-Sign"
            = Some (JStr (if resolve_useMasterKey AV (default empty_authOptions authOptions)
                             && truthy (js (masterKey AV))
                          then sign W (masterKey AV) true
                          else sign W (applicationKey AV) false))
            /\ h' !! "X-LC-Key" = None
       else h' !! "X-LC-Key"
            = Some (if resolve_useMasterKey AV (default empty_authOptions authOptions)
                       && truthy (js (masterKey AV))
                    then JStr (template (masterKey AV) +:+ ",master")
                    else js (applicationKey AV))
            /\ h' !! "X-LC-Sign" = None.
Proof.
  destruct (setHeaders_auth W AV authOptions signKey) as (w & evs & h' & Hrun & Hauth).
  exists w, evs, h'. split; [exact Hrun|].
  unfold sign_header, key_header in Hauth.
  destruct signKey; destruct Hauth as [Hone Hother]; split; assumption.
Qed.

(** X2. In signed mode the signature header ends in the marker [",master"]
    exactly when the master key is requested and set; a request that falls
    back to the application key is signed without the marker. *)
Theorem signed_header_marker (W : Platform) (AV : AVGlobal)
    (authOptions : option AuthOptions.t) :
  exists w evs h' s,
    setHeaders W AV authOptions true = (w, Normal (evs, Resolved h'))
    /\ h' !! "X-LC-Sign" = Some (JStr s)
    /\ ((exists p, s = p +:+ ",master")
        <-> resolve_useMasterKey AV (default empty_authOptions authOptions) = true
            /\ truthy (js (masterKey AV)) = true).
Proof.
  destruct (setHeaders_auth W AV authOptions true)
    as (w & evs & h' & Hrun & Hsign & _).
  exists w, evs, h', (sign_header W AV authOptions).
  split; [exact Hrun|]. split; [exact Hsign|].
  unfold sign_header.
  destruct (resolve_useMasterKey AV (default empty_authOptions authOptions)),
    (truthy (js (masterKey AV))); cbn [andb].
  - split; [auto | intros _; apply sign_master_marker].
  - split; [intros [p Hp]; now apply sign_plain_no_marker in Hp | intros [_ H]; discriminate].
  - split; [intros [p Hp]; now apply sign_plain_no_marker in Hp | intros [H _]; discriminate].
  - split; [intros [p Hp]; now apply sign_plain_no_marker in Hp | intros [H _]; discriminate].
Qed.

Lemma signed_header_marker_witness :
  exists s,
    (exists w evs h',
       setHeaders demo_platform master_default_AV None true = (w, Normal (evs, Resolved h'))
       /\ h' !! "X-LC-Sign" = Some (JStr s))
    /\ exists p, s = p +:+ ",master".
Proof.
  destruct (signed_header_marker demo_platform master_default_AV None)
    as (w & evs & h' & s & Hrun & Hs & Hiff).
  exists s. split; [exists w, evs, h'; split; [exact Hrun | exact Hs]|].
  apply Hiff. split; reflexivity.
Defined.

(** The names of all headers the builder can set. *)
Lemma setHeaders_sync_names (W : Platform) (AV : AVGlobal) (ao : AuthOptions.t)
    (signKey : bool) (w : list event) (h : gmap string jsval) (k : string) :
  setHeaders_sync W AV ao signKey = (w, Normal h) ->
  is_Some (h !! k) ->
  k ∈ ["X-LC-Id"; "Content-Type"; "X-LC-Key"; "X-LC-Sign"; "X-LC-Hook-Key"; "X-LC-Prod";
       "User-Agent"; "X-LC-UA"].
Proof.
  unfold setHeaders_sync, setAppId.
  destruct (resolve_useMasterKey AV ao), (truthy (js (masterKey AV))), signKey;
    rewrite ?bind_ret;
    destruct (truthy (js (hookKey AV))), (Config.production (_config AV)),
      (CLIENT_PLATFORM W); cbn [negb]; unfold bind, ret, emit; cbn [app];
    intros [= <- <-] Hk.
  all: repeat (apply lookup_insert_is_Some in Hk as [<- | [_ Hk]];
               [repeat first [ apply elem_of_cons; left; reflexivity
                             | apply elem_of_cons; right ]|]).
  all: now apply lookup_empty_is_Some in Hk.
Qed.

(** The headers a transport call of [request] is given: those of the
    synchronous part, passed through the callback of the promise chain. *)
Lemma request_ajax_headers (W : Platform) (AV : AVGlobal) (d : RequestDescriptor)
    (a : AjaxArgs) :
  EvAjax a ∈ all_events (request W AV d) ->
  initialized AV = true
  /\ exists w h evs,
       setHeaders_sync W AV (default empty_authOptions (authOptions d)) false
       = (w, Normal h)
       /\ setHeaders_async W AV (default empty_authOptions (authOptions d)) h
          = (evs, Resolved (ajax_headers a)).
Proof.
  intros Ha.
  destruct (initialized AV) eqn:Hinit.
  2: { rewrite (request_uninitialized W AV d Hinit) in Ha. now apply elem_of_nil in Ha. }
  destruct (createApiUrl AV (service d) (version d) (path d)) as [url|e] eqn:Hurl.
  2: { rewrite (request_no_url W AV d e Hinit Hurl) in Ha. cbn in Ha.
       apply list_elem_of_singleton in Ha. discriminate. }
  destruct (request_run W AV d url Hinit Hurl) as (w & h & evs & h' & Hsync & Hasync & Hreq).
  cbv zeta in Hreq. rewrite Hreq in Ha. cbn [all_events fst] in Ha.
  destruct (setHeaders_sync_plain W AV (default empty_authOptions (authOptions d)))
    as (w0 & h0 & Hsync0 & Hw & _).
  rewrite Hsync in Hsync0. injection Hsync0 as <- <-.
  apply elem_of_cons in Ha as [Ha|Ha]; [discriminate|].
  apply elem_of_app in Ha as [Ha|Ha]; [apply Hw in Ha; discriminate|].
  apply elem_of_app in Ha as [Ha|Ha].
  { pose proof (setHeaders_async_events W AV
                  (default empty_authOptions (authOptions d)) h (EvAjax a)) as Hev.
    rewrite Hasync in Hev. specialize (Hev Ha). discriminate. }
  apply list_elem_of_singleton in Ha. injection Ha as ->. cbn [ajax_headers].
  split; [reflexivity|]. exists w, h, evs. split; [exact Hsync | exact Hasync].
Qed.

Lemma initialized_id (AV : AVGlobal) :
  initialized AV = true -> exists c id, applicationId AV = Some (String c id).
Proof.
  unfold initialized. destruct (applicationId AV) as [[|c id]|]; cbn; try discriminate.
  eauto.
Qed.

(** A transport call of [request], used to run the statements below. *)
Lemma request_demo_call (W : Platform) (AV : AVGlobal) (d : RequestDescriptor) (url : string) :
  initialized AV = true ->
  createApiUrl AV (service d) (version d) (path d) = Normal url ->
  exists a, EvAjax a ∈ all_events (request W AV d).
Proof.
  intros Hinit Hurl. destruct (request_ajax_exists W AV d url Hinit Hurl) as (a & Ha & _).
  now exists a.
Qed.

(** X3. Every transport call made by [request] carries the application
    identifier, which is a non-empty string, in the header ["X-LC-Id"], and
    the content type ["application/json;charset=UTF-8"]. *)
Theorem request_sends_application_id (W : Platform) (AV : AVGlobal)
    (d : RequestDescriptor) (a : AjaxArgs) :
  EvAjax a ∈ all_events (request W AV d) ->
  (exists c id, applicationId AV = Some (String c id)
                /\ ajax_headers a !! "X-LC-Id" = Some (JStr (String c id)))
  /\ ajax_headers a !! "Content-Type" = Some (JStr "application/json;charset=UTF-8").
Proof.
  intros Ha. apply request_ajax_headers in Ha as (Hinit & w & h & evs & Hsync & Hasync).
  destruct (setHeaders_sync_lookup W AV (default empty_authOptions (authOptions d)) false)
    as (w0 & h0 & Hsync0 & _ & Hid & Hct & _).
  rewrite Hsync in Hsync0. injection Hsync0 as <- <-.
  destruct (setHeaders_async_run W AV (default empty_authOptions (authOptions d)) h)
    as (evs0 & h0 & Hasync0 & Hkeep & _).
  rewrite Hasync in Hasync0. injection Hasync0 as <- <-.
  rewrite !Hkeep by discriminate. split; [|exact Hct].
  destruct (initialized_id AV Hinit) as (c & id & Hid').
  exists c, id. split; [exact Hid'|]. rewrite Hid, Hid'. reflexivity.
Qed.

Lemma request_sends_application_id_witness :
  exists a,
    EvAjax a ∈ all_events (request demo_platform demo_AV
      {| service := None; version := None; method := Some "GET"; path := Some "/date";
         query := JUndef; data := JUndef; authOptions := None |})
    /\ ajax_headers a !! "X-LC-Id" = Some (JStr "app-id")
    /\ ajax_headers a !! "Content-Type" = Some (JStr "application/json;charset=UTF-8").
Proof.
  destruct (request_demo_call demo_platform demo_AV
    {| service := None; version := None; method := Some "GET"; path := Some "/date";
       query := JUndef; data := JUndef; authOptions := None |}
    "https://x.example/1.1/date" eq_refl eq_refl) as [a Ha].
  exists a. split; [exact Ha|].
  destruct (request_sends_application_id _ _ _ _ Ha) as [(c & id & Hid & Hh) Hct].
  injection Hid as <- <-. split; [exact Hh | exact Hct].
Defined.

(** X4. A transport call made by [request] carries the hook-key header
    exactly when a non-empty hook key is configured, holding that key, and
    the production header exactly when the production flag is not [null],
    holding ["true"] or ["false"]. *)
Theorem request_optional_headers (W : Platform) (AV : AVGlobal)
    (d : RequestDescriptor) (a : AjaxArgs) :
  EvAjax a ∈ all_events (request W AV d) ->
  ajax_headers a !! "X-LC-Hook-Key"
    = match hookKey AV with
      | Some (String c k) => Some (JStr (String c k))
      | _ => None
      end
  /\ ajax_headers a !! "X-LC-Prod"
     = match Config.production (_config AV) with
       | Some true => Some (JStr "true")
       | Some false => Some (JStr "false")
       | None => None
       end.
Proof.
  intros Ha. apply request_ajax_headers in Ha as (Hinit & w & h & evs & Hsync & Hasync).
  destruct (setHeaders_sync_lookup W AV (default empty_authOptions (authOptions d)) false)
    as (w0 & h0 & Hsync0 & _ & _ & _ & _ & _ & Hhook & Hprod & _).
  rewrite Hsync in Hsync0. injection Hsync0 as <- <-.
  destruct (setHeaders_async_run W AV (default empty_authOptions (authOptions d)) h)
    as (evs0 & h0 & Hasync0 & Hkeep & _).
  rewrite Hasync in Hasync0. injection Hasync0 as <- <-.
  rewrite !Hkeep by discriminate. rewrite Hhook, Hprod. split.
  - now destruct (hookKey AV) as [[|c k]|].
  - now destruct (Config.production (_config AV)) as [[]|].
Qed.

Lemma request_optional_headers_witness :
  exists a,
    EvAjax a ∈ all_events (request demo_platform master_default_AV
      {| service := None; version := None; method := Some "GET"; path := Some "/date";
         query := JUndef; data := JUndef; authOptions := None |})
    /\ ajax_headers a !! "X-LC-Hook-Key" = Some (JStr "hook-key")
    /\ ajax_headers a !! "X-LC-Prod" = Some (JStr "true").
Proof.
  destruct (request_demo_call demo_platform master_default_AV
    {| service := None; version := None; method := Some "GET"; path := Some "/date";
       query := JUndef; data := JUndef; authOptions := None |}
    "https://x.example/1.1/date" eq_refl eq_refl) as [a Ha].
  exists a. split; [exact Ha|].
  exact (request_optional_headers _ _ _ _ Ha).
Defined.

(** X5. A transport call made by [request] carries the user agent under
    exactly one of two names: ["User-Agent"] when the platform switch is
    off, ["X-LC-UA"] when it is on; the other name is absent. *)
Theorem request_user_agent_header (W : Platform) (AV : AVGlobal)
    (d : RequestDescriptor) (a : AjaxArgs) :
  EvAjax a ∈ all_events (request W AV d) ->
  if CLIENT_PLATFORM W
  then ajax_headers a !! "X-LC-UA" = Some (js (Config.userAgent (_config AV)))
       /\ ajax_headers a !! "User-Agent" = None
  else ajax_headers a !! "User-Agent" = Some (js (Config.userAgent (_config AV)))
       /\ ajax_headers a !! "X-LC-UA" = None.
Proof.
  intros Ha. apply request_ajax_headers in Ha as (Hinit & w & h & evs & Hsync & Hasync).
  destruct (setHeaders_sync_lookup W AV (default empty_authOptions (authOptions d)) false)
    as (w0 & h0 & Hsync0 & _ & _ & _ & _ & _ & _ & _ & Hua & Hlc & _).
  rewrite Hsync in Hsync0. injection Hsync0 as <- <-.
  destruct (setHeaders_async_run W AV (default empty_authOptions (authOptions d)) h)
    as (evs0 & h0 & Hasync0 & Hkeep & _).
  rewrite Hasync in Hasync0. injection Hasync0 as <- <-.
  rewrite !Hkeep by discriminate. rewrite Hua, Hlc.
  now destruct (CLIENT_PLATFORM W).
Qed.

Lemma request_user_agent_header_witness :
  exists a,
    EvAjax a ∈ all_events (request twin_platform demo_AV
      {| service := None; version := None; method := Some "GET"; path := Some "/date";
         query := JUndef; data := JUndef; authOptions := None |})
    /\ ajax_headers a !! "X-LC-UA" = Some (JStr "LeanCloud-JS-SDK")
    /\ ajax_headers a !! "User-Agent" = None.
Proof.
  destruct (request_demo_call twin_platform demo_AV
    {| service := None; version := None; method := Some "GET"; path := Some "/date";
       query := JUndef; data := JUndef; authOptions := None |}
    "https://x.example/1.1/date" eq_refl eq_refl) as [a Ha].
  exists a. split; [exact Ha|].
  exact (request_user_agent_header _ _ _ _ Ha).
Defined.

(** X6. A transport call made by [request] carries no header beyond the
    identifier, the content type, the key, the hook key, the production
    flag, the user agent and the session token. *)
Theorem request_header_names (W : Platform) (AV : AVGlobal)
    (d : RequestDescriptor) (a : AjaxArgs) (k : string) :
  EvAjax a ∈ all_events (request W AV d) ->
  is_Some (ajax_headers a !! k) ->
  k ∈ ["X-LC-Id"; "Content-Type"; "X-LC-Key"; "X-LC-Hook-Key"; "X-LC-Prod";
       "User-Agent"; "X-LC-UA"; "X-LC-Session"].
Proof.
  intros Ha Hk. apply request_ajax_headers in Ha as (Hinit & w & h & evs & Hsync & Hasync).
  destruct (decide (k = "X-LC-Session")) as [->|Hne].
  { repeat first [ apply elem_of_cons; left; reflexivity | apply elem_of_cons; right ]. }
  destruct (setHeaders_async_run W AV (default empty_authOptions (authOptions d)) h)
    as (evs0 & h0 & Hasync0 & Hkeep & _).
  rewrite Hasync in Hasync0. injection Hasync0 as <- <-.
  rewrite (Hkeep k Hne) in Hk.
  destruct (decide (k = "X-LC-Sign")) as [->|Hns].
  { destruct (setHeaders_sync_lookup W AV (default empty_authOptions (authOptions d)) false)
      as (w0 & h0 & Hsync0 & _ & _ & _ & _ & Hsign & _).
    rewrite Hsync in Hsync0. injection Hsync0 as <- <-.
    rewrite Hsign in Hk. now apply is_Some_None in Hk. }
  pose proof (setHeaders_sync_names W AV _ false w h k Hsync Hk) as Hin.
  repeat (apply elem_of_cons in Hin as [-> | Hin];
          [first [ contradiction
                 | repeat first [ apply elem_of_cons; left; reflexivity
                                | apply elem_of_cons; right ] ]|]).
  now apply elem_of_nil in Hin.
Qed.

Lemma request_header_names_witness :
  exists a,
    EvAjax a ∈ all_events (request demo_platform demo_AV
      {| service := None; version := None; method := Some "GET"; path := Some "/date";
         query := JUndef; data := JUndef; authOptions := None |})
    /\ "X-LC-Session" ∈ ["X-LC-Id"; "Content-Type"; "X-LC-Key"; "X-LC-Hook-Key";
                          "X-LC-Prod"; "User-Agent"; "X-LC-UA"; "X-LC-Session"].
Proof.
  destruct (request_demo_call demo_platform demo_AV
    {| service := None; version := None; method := Some "GET"; path := Some "/date";
       query := JUndef; data := JUndef; authOptions := None |}
    "https://x.example/1.1/date" eq_refl eq_refl) as [a Ha].
  exists a. split; [exact Ha|].
  apply (request_header_names _ _ _ a "X-LC-Session" Ha).
  destruct (request_ajax_headers _ _ _ _ Ha) as (_ & w & h & evs & Hsync & Hasync).
  match type of Hasync with
  | setHeaders_async _ _ ?ao _ = _ =>
      destruct (setHeaders_async_run demo_platform demo_AV ao h)
        as (evs' & h' & Hasync' & _ & Hcase)
  end.
  rewrite Hasync in Hasync'. injection Hasync' as _ <-.
  cbn in Hcase. destruct Hcase as [_ ->]. rewrite lookup_insert_eq. eexists. reflexivity.
Defined.

(** ** More on the dispatcher *)

(** A call that passes both checks, with its two traces spelled out. *)
Lemma request_shape (W : Platform) (AV : AVGlobal) (d : RequestDescriptor) (url : string) :
  initialized AV = true ->
  createApiUrl AV (service d) (version d) (path d) = Normal url ->
  exists h h' lookup,
    let ao := default empty_authOptions (authOptions d) in
    let warn := if resolve_useMasterKey AV ao && negb (truthy (js (masterKey AV)))
                then [EvWarn "masterKey is not set, fall back to use appKey"] else [] in
    let args := {| ajax_method := method d; ajax_url := url; ajax_query := query d;
                   ajax_data := match data d with JUndef => JObj ∅ | v => v end;
                   ajax_headers := h' |} in
    setHeaders_sync W AV ao false = (warn, Normal h)
    /\ setHeaders_async W AV ao h = (lookup, Resolved h')
    /\ (lookup = [] \/ lookup = [EvCurrentAsync])
    /\ request W AV d
       = (EvRefresh :: warn,
          Normal (lookup ++ [EvAjax args],
                  match ajax W args with
                  | Resolved v => Resolved v
                  | Rejected e => snd (handleError W e)
                  end)).
Proof.
  intros Hinit Hurl.
  destruct (request_run W AV d url Hinit Hurl) as (w & h & evs & h' & Hsync & Hasync & Hreq).
  destruct (setHeaders_sync_lookup W AV (default empty_authOptions (authOptions d)) false)
    as (w0 & h0 & Hsync0 & Hw & _).
  rewrite Hsync in Hsync0. injection Hsync0 as <- <-.
  exists h, h', evs. cbv zeta. rewrite <- Hw.
  split; [exact Hsync|]. split; [exact Hasync|]. split; [|exact Hreq].
  destruct (setHeaders_async_run W AV (default empty_authOptions (authOptions d)) h)
    as (evs0 & h0 & Hasync0 & _ & Hcase).
  rewrite Hasync in Hasync0. injection Hasync0 as <- <-.
  destruct (AuthOptions.sessionToken (default empty_authOptions (authOptions d)))
    as [[|c tok]|]; [| destruct Hcase as [-> _]; now left |];
    destruct (Config.disableCurrentUser (_config AV)); destruct Hcase as [-> _]; auto.
Qed.

(** X7. When the master key is requested but none is set, a call that
    passes both checks logs the fall-back warning once, before the promise
    chain starts, and its transport call carries the application key, which
    is then a non-empty string, without the marker. In every other case no
    warning is logged. *)
Theorem request_master_key_fallback (W : Platform) (AV : AVGlobal)
    (d : RequestDescriptor) (url : string) :
  initialized AV = true ->
  createApiUrl AV (service d) (version d) (path d) = Normal url ->
  if resolve_useMasterKey AV (default empty_authOptions (authOptions d))
     && negb (truthy (js (masterKey AV)))
  then fst (request W AV d)
       = [EvRefresh; EvWarn "masterKey is not set, fall back to use appKey"]
       /\ exists c key,
            applicationKey AV = Some (String c key)
            /\ forall a, EvAjax a ∈ all_events (request W AV d) ->
                 ajax_headers a !! "X-LC-Key" = Some (JStr (String c key))
  else forall msg, EvWarn msg ∉ all_events (request W AV d).
Proof.
  intros Hinit Hurl.
  destruct (request_shape W AV d url Hinit Hurl) as (h & h' & lookup & Hshape).
  cbv zeta in Hshape. destruct Hshape as (_ & _ & Hlookup & Hreq).
  destruct (resolve_useMasterKey AV (default empty_authOptions (authOptions d))
            && negb (truthy (js (masterKey AV)))) eqn:Hfall.
  - split; [now rewrite Hreq|].
    apply andb_true_iff in Hfall as [Hres Hmk]. apply negb_true_iff in Hmk.
    unfold initialized in Hinit. rewrite Hmk, orb_false_r in Hinit.
    apply andb_true_iff in Hinit as [Hid Hkey].
    destruct (applicationKey AV) as [[|c key]|] eqn:Happ; try discriminate.
    exists c, key. split; [reflexivity|].
    intros a Ha. apply request_ajax_inv in Ha as (_ & _ & _ & _ & _ & Hk & _).
    rewrite Hk. unfold key_header. now rewrite Hres, Hmk, Happ.
  - intros msg Hin. rewrite Hreq in Hin. cbn [all_events fst] in Hin.
    apply elem_of_cons in Hin as [Hin|Hin]; [discriminate|].
    apply elem_of_app in Hin as [Hin|Hin].
    + destruct Hlookup as [-> | ->]; [now apply elem_of_nil in Hin|].
      apply list_elem_of_singleton in Hin. discriminate.
    + apply list_elem_of_singleton in Hin. discriminate.
Qed.

Lemma request_master_key_fallback_witness :
  fst (request demo_platform fallback_AV
         {| service := None; version := None; method := Some "GET"; path := Some "/date";
            query := JUndef; data := JUndef; authOptions := None |})
  = [EvRefresh; EvWarn "masterKey is not set, fall back to use appKey"].
Proof.
  assert (Hinit : initialized fallback_AV = true) by reflexivity.
  assert (Hurl : createApiUrl fallback_AV None None (Some "/date")
                 = Normal "https://x.example/1.1/date") by reflexivity.
  exact (proj1 (request_master_key_fallback demo_platform fallback_AV
    {| service := None; version := None; method := Some "GET"; path := Some "/date";
       query := JUndef; data := JUndef; authOptions := None |}
    "https://x.example/1.1/date" Hinit Hurl)).
Defined.



(** X9. A call that passes both checks returns a promise. The router is
    asked to refresh once, first of all; the transport is called once, last
    of all, for the URL that was built. The promise resolves with the
    payload of the transport, untouched, when the transport succeeds, and
    is rejected with what [handleError] makes of the raw error, never with
    the raw error itself, when it fails. *)
Theorem request_dispatch (W : Platform) (AV : AVGlobal) (d : RequestDescriptor)
    (url : string) :
  initialized AV = true ->
  createApiUrl AV (service d) (version d) (path d) = Normal url ->
  exists warn lookup args settle,
    request W AV d = (EvRefresh :: warn, Normal (lookup ++ [EvAjax args], settle))
    /\ (warn = [] \/ warn = [EvWarn "masterKey is not set, fall back to use appKey"])
    /\ (lookup = [] \/ lookup = [EvCurrentAsync])
    /\ ajax_url args = url
    /\ match ajax W args with
       | Resolved payload => settle = Resolved payload
       | Rejected raw =>
           handleError W raw = ([], settle) /\ exists reason, settle = Rejected reason
       end.
Proof.
  intros Hinit Hurl.
  destruct (request_shape W AV d url Hinit Hurl) as (h & h' & lookup & Hshape).
  cbv zeta in Hshape. destruct Hshape as (_ & _ & Hlookup & Hreq).
  do 4 eexists. split; [exact Hreq|].
  split; [destruct (_ && _); auto|]. split; [exact Hlookup|]. split; [reflexivity|].
  destruct (ajax W _) as [payload|raw]; [reflexivity|].
  destruct (handleError_rejects W raw) as [reason Hrej]. rewrite Hrej. cbn. eauto.
Qed.

Lemma request_dispatch_witness :
  exists warn lookup args,
    request failing_platform demo_AV
      {| service := None; version := None; method := Some "GET";
         path := Some "/classes/Todo/42"; query := JUndef; data := JUndef;
         authOptions := None |}
    = (EvRefresh :: warn,
       Normal (lookup ++ [EvAjax args],
               Rejected (AVError (JNum 101) (JStr "Object not found."))))
    /\ ajax_url args = "https://x.example/1.1/classes/Todo/42".
Proof.
  assert (Hinit : initialized demo_AV = true) by reflexivity.
  assert (Hurl : createApiUrl demo_AV None None (Some "/classes/Todo/42")
                 = Normal "https://x.example/1.1/classes/Todo/42") by reflexivity.
  destruct (request_dispatch failing_platform demo_AV
    {| service := None; version := None; method := Some "GET";
       path := Some "/classes/Todo/42"; query := JUndef; data := JUndef;
       authOptions := None |} "https://x.example/1.1/classes/Todo/42" Hinit Hurl)
    as (warn & lookup & args & settle & Hreq & _ & _ & Hu & Hsettle).
  exists warn, lookup, args. split; [|exact Hu].
  rewrite Hreq. cbn in Hsettle. destruct Hsettle as [Hh _].
  vm_compute in Hh. injection Hh as <-. reflexivity.
Defined.

(** X10. [request] hands the method and the query to the transport as it
    received them. A body that was omitted is sent as the empty object;
    every other body, [null] included, is sent as it is. *)
Theorem request_forwards_payload (W : Platform) (AV : AVGlobal) (d : RequestDescriptor)
    (a : AjaxArgs) :
  EvAjax a ∈ all_events (request W AV d) ->
  ajax_method a = method d
  /\ ajax_query a = query d
  /\ (data d = JUndef -> ajax_data a = JObj ∅)
  /\ (data d <> JUndef -> ajax_data a = data d).
Proof.
  intros Ha. apply request_ajax_inv in Ha as (_ & _ & Hm & Hq & Hd & _).
  split; [exact Hm|]. split; [exact Hq|]. rewrite Hd. split.
  - now intros ->.
  - intros Hne. now destruct (data d).
Qed.

Lemma request_forwards_payload_witness :
  exists a,
    EvAjax a ∈ all_events (request demo_platform demo_AV
      {| service := None; version := None; method := Some "DELETE"; path := Some "/date";
         query := JObj {[ "x" := JNum 1 ]}; data := JNull; authOptions := None |})
    /\ ajax_method a = Some "DELETE"
    /\ ajax_query a = JObj {[ "x" := JNum 1 ]}
    /\ ajax_data a = JNull.
Proof.
  destruct (request_demo_call demo_platform demo_AV
    {| service := None; version := None; method := Some "DELETE"; path := Some "/date";
       query := JObj {[ "x" := JNum 1 ]}; data := JNull; authOptions := None |}
    "https://x.example/1.1/date" eq_refl eq_refl) as [a Ha].
  exists a. split; [exact Ha|].
  destruct (request_forwards_payload _ _ _ _ Ha) as (Hm & Hq & _ & Hd).
  split; [exact Hm|]. split; [exact Hq|]. apply Hd. discriminate.
Defined.

Lemma count_events_app (p : event -> bool) (l1 l2 : list event) :
  count_events p (l1 ++ l2) = count_events p l1 + count_events p l2.
Proof. induction l1 as [|ev l1 IH]; cbn; [reflexivity | rewrite IH; lia]. Qed.

(** X11. The session header reaches the transport as the promise chain
    left it. A non-empty explicit token of the AuthOptions is sent, and the
    provider is not queried during the call. Otherwise, with the lookup
    disabled, no session header is sent and nothing is queried; with the
    lookup enabled the provider is queried exactly once and its non-empty
    token, if it has a user with one, is sent. *)
Theorem request_session_header (W : Platform) (AV : AVGlobal) (d : RequestDescriptor)
    (a : AjaxArgs) :
  EvAjax a ∈ all_events (request W AV d) ->
  match AuthOptions.sessionToken (default empty_authOptions (authOptions d)) with
  | Some (String c tok) =>
      ajax_headers a !! "X-LC-Session" = Some (JStr (String c tok))
      /\ count_events is_currentAsync (all_events (request W AV d)) = 0
  | _ =>
      if Config.disableCurrentUser (_config AV)
      then ajax_headers a !! "X-LC-Session" = None
           /\ count_events is_currentAsync (all_events (request W AV d)) = 0
      else ajax_headers a !! "X-LC-Session"
           = match User_currentAsync W with
             | Some {| _sessionToken := Some (String c tok) |} => Some (JStr (String c tok))
             | _ => None
             end
           /\ count_events is_currentAsync (all_events (request W AV d)) = 1
  end.
Proof.
  intros Ha.
  pose proof (request_ajax_inv W AV d a Ha) as (Hinit & Hurl & _).
  destruct (request_shape W AV d (ajax_url a) Hinit Hurl) as (h & h' & lookup & Hshape).
  cbv zeta in Hshape. destruct Hshape as (Hsync & Hasync & _ & Hreq).
  destruct (request_ajax_headers W AV d a Ha) as (_ & w0 & h0 & evs0 & Hsync0 & Hasync0).
  rewrite Hsync in Hsync0. injection Hsync0 as _ <-.
  rewrite Hasync in Hasync0. injection Hasync0 as <- Hh. subst h'.
  destruct (setHeaders_sync_lookup W AV (default empty_authOptions (authOptions d)) false)
    as (w1 & h1 & Hsync1 & _ & _ & _ & _ & _ & _ & _ & _ & _ & Hnone).
  rewrite Hsync in Hsync1. injection Hsync1 as _ <-.
  destruct (setHeaders_async_run W AV (default empty_authOptions (authOptions d)) h)
    as (evs1 & h1 & Hasync1 & _ & Hcase).
  rewrite Hasync in Hasync1. injection Hasync1 as <- <-.
  rewrite Hreq. cbn [all_events fst].
  assert (Hcount : forall l,
    count_events is_currentAsync
      ((EvRefresh :: (if resolve_useMasterKey AV (default empty_authOptions (authOptions d))
                         && negb (truthy (js (masterKey AV)))
                      then [EvWarn "masterKey is not set, fall back to use appKey"] else []))
       ++ l ++ [EvAjax a])
    = count_events is_currentAsync l).
  { intros l. rewrite !count_events_app. destruct (_ && _); cbn; lia. }
  assert (Hargs : {| ajax_method := method d; ajax_url := ajax_url a; ajax_query := query d;
                     ajax_data := match data d with JUndef => JObj ∅ | v => v end;
                     ajax_headers := ajax_headers a |} = a).
  { destruct (request_ajax_inv W AV d a Ha) as (_ & _ & Hm & Hq & Hd & _).
    destruct a; cbn in *. now subst. }
  rewrite Hargs, Hcount.
  destruct (AuthOptions.sessionToken (default empty_authOptions (authOptions d)))
    as [[|c tok]|].
  2: { destruct Hcase as [-> ->]. split; [apply lookup_insert_eq | reflexivity]. }
  all: destruct (Config.disableCurrentUser (_config AV));
    destruct Hcase as [-> Hh']; (split; [|reflexivity]); rewrite Hh'; try exact Hnone.
  all: destruct (User_currentAsync W) as [[[[|c tok]|]]|];
    try exact Hnone; apply lookup_insert_eq.
Qed.

Lemma request_session_header_witness :
  exists a,
    EvAjax a ∈ all_events (request demo_platform demo_AV
      {| service := None; version := None; method := Some "GET"; path := Some "/date";
         query := JUndef; data := JUndef; authOptions := None |})
    /\ ajax_headers a !! "X-LC-Session" = Some (JStr "user-session").
Proof.
  destruct (request_demo_call demo_platform demo_AV
    {| service := None; version := None; method := Some "GET"; path := Some "/date";
       query := JUndef; data := JUndef; authOptions := None |}
    "https://x.example/1.1/date" eq_refl eq_refl) as [a Ha].
  exists a. split; [exact Ha|].
  exact (proj1 (request_session_header _ _ _ _ Ha)).
Defined.

(** ** More on the legacy adapter *)

(** The guarded read [data && data.k] never throws. *)
Lemma legacy_guard (data : jsval) (k : string) :
  (if truthy data then get_prop data k else Normal data)
  = Normal (if truthy data then field data k else data).
Proof.
  destruct (truthy data) eqn:Ht; [|reflexivity].
  now rewrite get_prop_field by now apply truthy_not_nullish.
Qed.

(** The adapter for any body: the two checks, then the call of [request]. *)
Lemma _request_unfold (W : Platform) (AV : AVGlobal)
    (route className objectId method : option string)
    (data : jsval) (ao : option AuthOptions.t) (query : jsval) :
  let body := match data with JUndef => JObj ∅ | v => v end in
  _request W AV route className objectId method data ao query
  = if truthy (if truthy body then field body "_fetchWhenSave" else body)
    then ([], Throw (JsError "_fetchWhenSave should be in the query"))
    else if truthy (if truthy body then field body "_where" else body)
    then ([], Throw (JsError "_where should be in the query"))
    else request W AV
           (if truthy (js method) && bool_decide (toLowerCase (template method) = "get")
            then {| service := None; version := None; method := method;
                    path := Some (legacy_path route className objectId);
                    query := JObj (extend ∅ query body); data := JNull;
                    authOptions := ao |}
            else {| service := None; version := None; method := method;
                    path := Some (legacy_path route className objectId);
                    query := query; data := body; authOptions := ao |}).
Proof.
  cbv zeta. unfold _request. cbv zeta. rewrite legacy_path_eq, !legacy_guard.
  unfold lift, bind, throw.
  destruct (truthy (if truthy _ then field _ "_fetchWhenSave" else _)); [reflexivity|].
  destruct (truthy (if truthy _ then field _ "_where" else _)); [reflexivity|].
  destruct (truthy (js method) && bool_decide (toLowerCase (template method) = "get"));
    destruct (request W AV _); reflexivity.
Qed.

(** X12. The legacy adapter always addresses the service ["api"] at version
    ["1.1"]: the URL of its transport call is the configured base URL of
    that service, one separator, ["1.1"], and then the route, the class
    name and the object id, each behind a separator and in this order, an
    omitted or empty one contributing nothing. The method is passed on as
    given. *)
Theorem legacy_request_url (W : Platform) (AV : AVGlobal)
    (route className objectId method : option string)
    (data : jsval) (ao : option AuthOptions.t) (query : jsval) (a : AjaxArgs) :
  EvAjax a ∈ all_events (_request W AV route className objectId method data ao query) ->
  ajax_method a = method
  /\ exists base,
       Config.serverURLs (_config AV) !! "api" = Some base
       /\ ((exists stem, base = stem +:+ "/"
              /\ ajax_url a = base +:+ "1.1" +:+ legacy_path route className objectId)
           \/ ((forall stem, base <> stem +:+ "/")
              /\ ajax_url a = base +:+ "/1.1" +:+ legacy_path route className objectId)).
Proof.
  intros Ha. pose proof (_request_unfold W AV route className objectId method data ao query)
    as Hun. cbv zeta in Hun. rewrite Hun in Ha. clear Hun.
  destruct (truthy (if truthy _ then field _ "_fetchWhenSave" else _));
    [now apply elem_of_nil in Ha|].
  destruct (truthy (if truthy _ then field _ "_where" else _));
    [now apply elem_of_nil in Ha|].
  apply request_ajax_inv in Ha as (_ & Hurl & Hm & _).
  assert (Hurl' : createApiUrl AV None None (Some (legacy_path route className objectId))
                  = Normal (ajax_url a) /\ ajax_method a = method).
  { destruct (truthy (js method) && bool_decide (toLowerCase (template method) = "get"));
      cbn in Hurl, Hm; now split. }
  clear Hurl Hm. destruct Hurl' as [Hurl Hm]. split; [exact Hm|].
  destruct (Config.serverURLs (_config AV) !! "api") as [[|c base]|] eqn:Htbl.
  - rewrite createApiUrl_missing in Hurl by (cbn; now rewrite Htbl). discriminate.
  - exists (String c base). split; [reflexivity|].
    rewrite (createApiUrl_found AV None None _ c base Htbl) in Hurl.
    change (default "1.1" None) with "1.1" in Hurl.
    change (default "" (Some (legacy_path route className objectId)))
      with (legacy_path route className objectId) in Hurl.
    remember (String.get (String.length (String c base) - 1) (String c base))
      as last eqn:Hlast.
    case_bool_decide as Hslash; injection Hurl as <-; subst last.
    + left. apply last_char_slash in Hslash as [stem Hstem]. exists stem.
      split; [exact Hstem | reflexivity].
    + right. split.
      * intros stem Hstem. apply Hslash, last_char_slash. eauto.
      * now rewrite !append_assoc.
  - rewrite createApiUrl_missing in Hurl by (cbn; now rewrite Htbl). discriminate.
Qed.

Lemma legacy_request_url_witness :
  exists a,
    EvAjax a ∈ all_events
      (_request demo_platform demo_AV (Some "classes") None (Some "42") (Some "PUT")
         JUndef None JUndef)
    /\ ajax_url a = "https://x.example/1.1/classes/42".
Proof.
  assert (Hreq : _request demo_platform demo_AV (Some "classes") None (Some "42")
                   (Some "PUT") JUndef None JUndef
                 = request demo_platform demo_AV
                     {| service := None; version := None; method := Some "PUT";
                        path := Some "/classes/42"; query := JUndef; data := JObj ∅;
                        authOptions := None |}) by reflexivity.
  destruct (request_demo_call demo_platform demo_AV
    {| service := None; version := None; method := Some "PUT";
       path := Some "/classes/42"; query := JUndef; data := JObj ∅; authOptions := None |}
    "https://x.example/1.1/classes/42" eq_refl eq_refl) as [a Ha].
  rewrite <- Hreq in Ha. exists a. split; [exact Ha|].
  destruct (legacy_request_url _ _ _ _ _ _ _ _ _ _ Ha) as (_ & base & Hbase & Hurl).
  injection Hbase as <-.
  destruct Hurl as [(stem & _ & Hu) | (Hno & _)]; [exact Hu|].
  exfalso. now apply (Hno "https://x.example").
Defined.



(** X14. For a body that passes the reserved-key check, the GET adaptation
    is applied for exactly eight methods, the spellings of ["get"] in upper
    and lower case; for every other method, such as one with a blank around
    it, the empty string or none at all, body and query are passed on
    unchanged. *)
Theorem legacy_GET_spellings (W : Platform) (AV : AVGlobal)
    (route className objectId method : option string)
    (d : gmap string jsval) (ao : option AuthOptions.t) (query : jsval) :
  truthy (field (JObj d) "_fetchWhenSave") = false ->
  truthy (field (JObj d) "_where") = false ->
  ((exists m, method = Some m
              /\ m ∈ ["GET"; "GEt"; "GeT"; "Get"; "gET"; "gEt"; "geT"; "get"]) ->
   _request W AV route className objectId method (JObj d) ao query
   = request W AV {| service := None; version := None; method := method;
                     path := Some (legacy_path route className objectId);
                     query := JObj (d ∪ allKeys query); data := JNull;
                     authOptions := ao |})
  /\ ((forall m, method = Some m
                 -> m ∉ ["GET"; "GEt"; "GeT"; "Get"; "gET"; "gEt"; "geT"; "get"]) ->
      _request W AV route className objectId method (JObj d) ao query
      = request W AV {| service := None; version := None; method := method;
                        path := Some (legacy_path route className objectId);
                        query := query; data := JObj d; authOptions := ao |}).
Proof.
  intros Hf Hw. split.
  - intros (m & -> & Hm). apply _request_GET; [|exact Hf|exact Hw].
    now apply case_insensitive_GET.
  - intros Hm. apply _request_other; [|exact Hf|exact Hw].
    intros m Heq Hci. apply (Hm m Heq). now apply case_insensitive_GET.
Qed.

Lemma legacy_GET_spellings_witness :
  _request demo_platform demo_AV (Some "classes") (Some "Todo") None (Some " GET")
    (JObj {[ "a" := JNum 1 ]}) None (JObj {[ "b" := JNum 2 ]})
  = request demo_platform demo_AV
      {| service := None; version := None; method := Some " GET";
         path := Some "/classes/Todo";
         query := JObj {[ "b" := JNum 2 ]}; data := JObj {[ "a" := JNum 1 ]};
         authOptions := None |}.
Proof.
  assert (Hf : truthy (field (JObj {[ "a" := JNum 1 ]}) "_fetchWhenSave") = false)
    by reflexivity.
  assert (Hw : truthy (field (JObj {[ "a" := JNum 1 ]}) "_where") = false)
    by reflexivity.
  apply (proj2 (legacy_GET_spellings demo_platform demo_AV
                  (Some "classes") (Some "Todo") None (Some " GET")
                  {[ "a" := JNum 1 ]} None (JObj {[ "b" := JNum 2 ]}) Hf Hw)).
  intros m [= <-] Hin.
  repeat (apply elem_of_cons in Hin as [Hin|Hin]; [discriminate|]).
  now apply elem_of_nil in Hin.
Defined.

(** ** The leaderboard: what [_finishFetch] does to [this] *)

Lemma Number_toString_no_d (n : Z) : occurs "d" (Number_toString n) = false.
Proof.
  assert (Hd : forall d, occurs "d" (NilEmpty.string_of_uint d) = false)
    by (induction d; simpl; auto).
  unfold Number_toString.
  destruct (Z.to_int n) as [d|d]; simpl; destruct d; simpl; auto.
Qed.

Lemma is_string_true (v : jsval) (s : string) : is_string v s = true <-> v = JStr s.
Proof.
  destruct v; cbn; try (split; [discriminate | intros [=]]).
  rewrite bool_decide_eq_true. split; [now intros -> | now intros [= ->]].
Qed.

Lemma is_string_false (k s : string) : is_string (JStr k) s = false <-> k <> s.
Proof. cbn. now rewrite bool_decide_eq_false. Qed.

(** One call of the callback: either [this] is left alone, or one
    property, never one of the three protected names, is assigned. *)
Lemma _finishFetch_each_cases (lib : Helpers) (this : gmap string jsval) (value key : jsval) :
  ((exists s, key = JStr s) \/ (exists n, key = JNum n)) ->
  _finishFetch_each lib this (value, key) = Normal this
  \/ _finishFetch_each lib this (value, key) = Throw TypeError
  \/ exists name stored,
       _finishFetch_each lib this (value, key) = Normal (<[name := stored]> this)
       /\ name <> "updatedAt" /\ name <> "objectId" /\ name <> "expiredAt".
Proof.
  intros Hkey. unfold _finishFetch_each.
  destruct (is_string key "updatedAt" || is_string key "objectId") eqn:Hskip; [now left|].
  apply orb_false_iff in Hskip as [Hu Ho].
  set (key' := if is_string key "expiredAt" then JStr "nextResetAt" else key).
  set (value' := if is_string key' "createdAt" then parseDate lib value else value).
  destruct (get_prop value' "__type") as [type|e] eqn:Hty; cbn [cbind].
  2: { right. left. destruct value'; cbn in Hty; congruence. }
  right. right. eexists _, _. split; [reflexivity|].
  subst key'. destruct Hkey as [[s ->] | [n ->]].
  - apply is_string_false in Hu, Ho.
    destruct (is_string (JStr s) "expiredAt") eqn:He.
    + cbn. repeat split; discriminate.
    + apply is_string_false in He. cbn. repeat split; assumption.
  - cbn. pose proof (Number_toString_no_d n) as Hd.
    repeat split; intros Heq; rewrite Heq in Hd; discriminate.
Qed.

(** X15. [_finishFetch] never changes the properties [updatedAt],
    [objectId] and [expiredAt] of the leaderboard, whatever the payload
    holds under these or other names, and whether the call ends normally or
    throws: the first two are skipped, the third is stored under
    [nextResetAt]. *)
Theorem finishFetch_protected_names (lib : Helpers) (this : gmap string jsval)
    (data : jsval) (name : string) :
  (forall value key, (value, key) ∈ each_visits lib data ->
                     (exists s, key = JStr s) \/ (exists n, key = JNum n)) ->
  name ∈ ["updatedAt"; "objectId"; "expiredAt"] ->
  fst (_finishFetch lib this data) !! name = this !! name.
Proof.
  intros Hkeys Hname. unfold _finishFetch.
  assert (Hne : forall n' stored (m : gmap string jsval),
            n' <> "updatedAt" -> n' <> "objectId" -> n' <> "expiredAt" ->
            <[n' := stored]> m !! name = m !! name).
  { intros n' stored m H1 H2 H3. apply lookup_insert_ne. intros ->.
    repeat (apply elem_of_cons in Hname as [Hname|Hname]; [congruence|]).
    now apply elem_of_nil in Hname. }
  revert this. induction (each_visits lib data) as [|[value key] rest IH]; intros this.
  - reflexivity.
  - cbn [each_update].
    assert (Hrest : forall v k, (v, k) ∈ rest ->
                      (exists s, k = JStr s) \/ (exists n, k = JNum n)).
    { intros v k Hin. apply (Hkeys v k). now apply elem_of_cons; right. }
    destruct (_finishFetch_each_cases lib this value key) as [Hc | [Hc | Hc]].
    + apply (Hkeys value key). now apply elem_of_cons; left.
    + rewrite Hc. now apply IH.
    + now rewrite Hc.
    + destruct Hc as (n' & stored & Hc & H1 & H2 & H3). rewrite Hc.
      rewrite (IH Hrest). now apply Hne.
Qed.

Lemma demo_helpers_keys (data value key : jsval) :
  (value, key) ∈ each_visits demo_helpers data ->
  (exists s, key = JStr s) \/ (exists n, key = JNum n).
Proof.
  destruct data; cbn; intros Hin; try (now apply elem_of_nil in Hin).
  - apply elem_of_lookup_imap in Hin as (i & x & [= -> ->] & _). right. eauto.
  - apply list_elem_of_fmap in Hin as ([k x] & [= -> ->] & _). left. eauto.
Qed.

Lemma finishFetch_protected_names_witness :
  fst (_finishFetch demo_helpers (Leaderboard (JStr "score")) sample_leaderboard_data)
    !! "objectId" = None.
Proof.
  rewrite (finishFetch_protected_names demo_helpers (Leaderboard (JStr "score"))
             sample_leaderboard_data "objectId").
  - reflexivity.
  - intros value key. apply demo_helpers_keys.
  - apply elem_of_cons. right. apply elem_of_cons. left. reflexivity.
Defined.









(** The callback throws nothing but a TypeError. *)
Lemma _finishFetch_each_throw (lib : Helpers) (this : gmap string jsval)
    (visit : jsval * jsval) (e : exn) :
  _finishFetch_each lib this visit = Throw e -> e = TypeError.
Proof.
  destruct visit as [value key]. unfold _finishFetch_each.
  destruct (is_string key "updatedAt" || is_string key "objectId"); [discriminate|].
  destruct (get_prop _ "__type") as [type|e'] eqn:Hty; cbn [cbind]; [discriminate|].
  intros [= <-]. destruct (if is_string _ "createdAt" then _ else _); cbn in Hty; congruence.
Qed.

Lemma _finishFetch_each_null (lib : Helpers) (this : gmap string jsval) (value key : jsval) :
  nullish value = true ->
  key ∉ [JStr "updatedAt"; JStr "objectId"; JStr "createdAt"] ->
  _finishFetch_each lib this (value, key) = Throw TypeError.
Proof.
  intros Hnull Hkey. unfold _finishFetch_each.
  assert (Hne : forall s, s ∈ ["updatedAt"; "objectId"; "createdAt"] -> is_string key s = false).
  { intros s Hs. destruct (is_string key s) eqn:His; [|reflexivity].
    apply is_string_true in His. subst key. exfalso. apply Hkey.
    repeat (apply elem_of_cons in Hs as [-> | Hs];
            [repeat first [ apply elem_of_cons; left; reflexivity
                          | apply elem_of_cons; right ]|]).
    now apply elem_of_nil in Hs. }
  rewrite (Hne "updatedAt"), (Hne "objectId") by
    (repeat first [ apply elem_of_cons; left; reflexivity | apply elem_of_cons; right ]).
  cbn [orb].
  assert (Hc : is_string (if is_string key "expiredAt" then JStr "nextResetAt" else key)
                 "createdAt" = false).
  { destruct (is_string key "expiredAt"); [reflexivity|]. apply Hne.
    repeat first [ apply elem_of_cons; left; reflexivity | apply elem_of_cons; right ]. }
  rewrite Hc. destruct value; try discriminate; reflexivity.
Qed.

Lemma each_update_null (lib : Helpers) (visits : list (jsval * jsval)) (value key : jsval) :
  (value, key) ∈ visits ->
  nullish value = true ->
  key ∉ [JStr "updatedAt"; JStr "objectId"; JStr "createdAt"] ->
  forall this, snd (each_update (_finishFetch_each lib) this visits) = Throw TypeError.
Proof.
  intros Hin Hnull Hkey. induction visits as [|visit rest IH]; intros this.
  - now apply elem_of_nil in Hin.
  - cbn [each_update].
    destruct (_finishFetch_each lib this visit) as [this'|e] eqn:Hstep.
    + apply elem_of_cons in Hin as [<- | Hin]; [|now apply IH].
      rewrite _finishFetch_each_null in Hstep by assumption. discriminate.
    + apply _finishFetch_each_throw in Hstep. now subst e.
Qed.

(** A call that passes both checks with a transport that answers. *)
Lemma request_answered (W : Platform) (AV : AVGlobal) (d : RequestDescriptor)
    (url : string) (payload : jsval) :
  initialized AV = true ->
  createApiUrl AV (service d) (version d) (path d) = Normal url ->
  (forall a, ajax W a = Resolved payload) ->
  exists warn lookup args,
    request W AV d = (EvRefresh :: warn, Normal (lookup ++ [EvAjax args], Resolved payload))
    /\ (warn = [] \/ warn = [EvWarn "masterKey is not set, fall back to use appKey"])
    /\ (lookup = [] \/ lookup = [EvCurrentAsync])
    /\ ajax_url args = url /\ ajax_method args = method d
    /\ ajax_query args = query d
    /\ ajax_data args = match data d with JUndef => JObj ∅ | v => v end.
Proof.
  intros Hinit Hurl Hajax.
  destruct (request_shape W AV d url Hinit Hurl) as (h & h' & lookup & Hshape).
  cbv zeta in Hshape. destruct Hshape as (_ & _ & Hlookup & Hreq).
  rewrite Hajax in Hreq. do 3 eexists. split; [exact Hreq|].
  split; [destruct (_ && _); auto|]. split; [exact Hlookup|]. repeat split.
Qed.

(** One transport call in a trace of the shape that [request] leaves. *)
Lemma count_ajax_trace (warn lookup : list event) (args : AjaxArgs) :
  warn = [] \/ warn = [EvWarn "masterKey is not set, fall back to use appKey"] ->
  lookup = [] \/ lookup = [EvCurrentAsync] ->
  count_events is_ajax ((EvRefresh :: warn) ++ lookup ++ [EvAjax args]) = 1
  /\ count_events is_refresh ((EvRefresh :: warn) ++ lookup ++ [EvAjax args]) = 1.
Proof. intros [-> | ->] [-> | ->]; split; reflexivity. Qed.

(** X17. A payload that holds [null] or [undefined] under any name other
    than [updatedAt], [objectId] and [createdAt] makes [_finishFetch] throw
    a TypeError. For [fetch] this means: when the transport answers with
    such a payload, the promise is rejected with the TypeError, after one
    transport call, instead of resolving with the leaderboard. *)
Theorem fetch_rejects_null_field (W : Platform) (AV : AVGlobal) (lib : Helpers)
    (this : gmap string jsval) (authOptions : option AuthOptions.t)
    (url : string) (payload value key : jsval) :
  initialized AV = true ->
  createApiUrl AV None None
    (Some ("/leaderboard/leaderboards/" +:+ ToString (field (JObj this) "statisticName")))
    = Normal url ->
  (forall a, ajax W a = Resolved payload) ->
  (value, key) ∈ each_visits lib payload ->
  nullish value = true ->
  key ∉ [JStr "updatedAt"; JStr "objectId"; JStr "createdAt"] ->
  snd (_finishFetch lib this payload) = Throw TypeError
  /\ exists sync async,
       fetch W AV lib this authOptions = (sync, Normal (async, Rejected TypeError))
       /\ count_events is_ajax async = 1.
Proof.
  intros Hinit Hurl Hajax Hin Hnull Hkey.
  assert (Hthrow : snd (_finishFetch lib this payload) = Throw TypeError)
    by (unfold _finishFetch; now apply (each_update_null lib _ value key)).
  split; [exact Hthrow|].
  destruct (request_answered W AV
    {| service := None; version := None; method := Some "GET";
       path := Some ("/leaderboard/leaderboards/"
                     +:+ ToString (field (JObj this) "statisticName"));
       query := JUndef; data := JUndef; authOptions := authOptions |}
    url payload Hinit Hurl Hajax) as (warn & lookup & args & Hreq & _ & Hlookup & _).
  unfold fetch. rewrite Hreq. unfold bind, ret, then_finishFetch, p_then_value.
  destruct (_finishFetch lib this payload) as [this' [u|e]]; cbn in Hthrow; [discriminate|].
  injection Hthrow as ->. do 2 eexists. split; [reflexivity|].
  rewrite count_events_app. now destruct Hlookup as [-> | ->].
Qed.

Lemma fetch_rejects_null_field_witness :
  exists sync async,
    fetch (answering_platform (JObj {[ "expiredAt" := JNull ]})) demo_AV demo_helpers
      (Leaderboard (JStr "score")) None
    = (sync, Normal (async, Rejected TypeError)).
Proof.
  assert (Hinit : initialized demo_AV = true) by reflexivity.
  assert (Hurl : createApiUrl demo_AV None None
            (Some ("/leaderboard/leaderboards/"
                   +:+ ToString (field (JObj (Leaderboard (JStr "score"))) "statisticName")))
            = Normal "https://x.example/1.1/leaderboard/leaderboards/score") by reflexivity.
  assert (Hin : (JNull, JStr "expiredAt")
                ∈ each_visits demo_helpers (JObj {[ "expiredAt" := JNull ]})).
  { change (each_visits demo_helpers (JObj {[ "expiredAt" := JNull ]}))
      with (map (fun '(k, x) => (x, JStr k))
                (map_to_list ({[ "expiredAt" := JNull ]} : gmap string jsval))).
    apply list_elem_of_fmap. exists ("expiredAt", JNull).
    split; [reflexivity|]. apply elem_of_map_to_list. reflexivity. }
  assert (Hkey : JStr "expiredAt" ∉ [JStr "updatedAt"; JStr "objectId"; JStr "createdAt"]).
  { intros H. repeat (apply elem_of_cons in H as [H|H]; [discriminate|]).
    now apply elem_of_nil in H. }
  destruct (fetch_rejects_null_field (answering_platform (JObj {[ "expiredAt" := JNull ]}))
              demo_AV demo_helpers (Leaderboard (JStr "score")) None
              "https://x.example/1.1/leaderboard/leaderboards/score"
              (JObj {[ "expiredAt" := JNull ]}) JNull (JStr "expiredAt")
              Hinit Hurl (fun a => eq_refl) Hin eq_refl Hkey)
    as (_ & sync & async & Hfetch & _).
  exists sync, async. exact Hfetch.
Defined.

(** ** The leaderboard: the calls and what they resolve with *)

Lemma map_try_Normal {A B} (f : A -> completion B) (g : A -> B) (l : list A) :
  (forall x, x ∈ l -> f x = Normal (g x)) -> map_try f l = Normal (map g l).
Proof.
  induction l as [|x r IH]; intros Hf; [reflexivity|].
  cbn [map_try map]. rewrite (Hf x) by (apply elem_of_cons; now left).
  cbn [cbind]. rewrite IH; [reflexivity|].
  intros y Hy. apply Hf. apply elem_of_cons. now right.
Qed.

(** The body of [getStatistics] for a user that passes the check. *)
Lemma getStatistics_valid (W : Platform) (AV : AVGlobal) (lib : Helpers)
    (user statisticNames : jsval) (authOptions : option AuthOptions.t) :
  truthy user = true -> truthy (field user "id") = true ->
  getStatistics W AV lib user statisticNames authOptions
  = p_resolve_then (
      let* p := request W AV
        {| service := None; version := None; method := Some "GET";
           path := Some ("/leaderboard/users/" +:+ ToString (field user "id")
                         +:+ "/statistics");
           query := JObj {[ "statistics" :=
                              if truthy statisticNames then ensureArray lib statisticNames
                              else JUndef ]};
           data := JUndef; authOptions := authOptions |} in
      ret (p_then_value p (statistics_of lib user))).
Proof.
  intros Hu Hid. unfold getStatistics. rewrite legacy_guard, Hu.
  unfold lift at 1. unfold bind at 1. rewrite Hid. cbn [negb].
  destruct (bind _ _) as [evs r]. now rewrite app_nil_l.
Qed.

Lemma updateStatistics_valid (W : Platform) (AV : AVGlobal) (lib : Helpers)
    (user statistics : jsval) (authOptions : option AuthOptions.t) :
  truthy user = true -> truthy (field user "id") = true ->
  updateStatistics W AV lib user statistics authOptions
  = p_resolve_then (
      let* p := request W AV
        {| service := None; version := None; method := Some "POST";
           path := Some ("/leaderboard/users/" +:+ ToString (field user "id")
                         +:+ "/statistics");
           query := JUndef;
           data := JArr (map (fun '(value, key) =>
                                JObj (<["statisticName" := key]>
                                        (<["statisticValue" := value]> ∅)))
                             (each_visits lib statistics));
           authOptions := authOptions |} in
      ret (p_then_value p (statistics_of lib user))).
Proof.
  intros Hu Hid. unfold updateStatistics. rewrite legacy_guard, Hu.
  unfold lift at 1. unfold bind at 1. rewrite Hid. cbn [negb]. cbv zeta.
  destruct (bind _ _) as [evs r]. now rewrite app_nil_l.
Qed.



(** X19. Missing credentials reach the caller of the leaderboard in two
    ways. [getStatistics] and [updateStatistics] call [request] inside
    their promise, so the error ["Not initialized"] is a rejection; [fetch],
    [reset], [destroy], [_update] and [createLeaderboard] call it directly,
    so the same error is thrown to the caller. In both cases nothing else
    has happened. *)
Theorem leaderboard_not_initialized (W : Platform) (AV : AVGlobal) (lib : Helpers)
    (this : gmap string jsval) (user x y z u : jsval) (authOptions : option AuthOptions.t) :
  initialized AV = false ->
  truthy user = true -> truthy (field user "id") = true ->
  getStatistics W AV lib user x authOptions = ([], Rejected (JsError "Not initialized"))
  /\ updateStatistics W AV lib user x authOptions
     = ([], Rejected (JsError "Not initialized"))
  /\ fetch W AV lib this authOptions = ([], Throw (JsError "Not initialized"))
  /\ reset W AV lib this authOptions = ([], Throw (JsError "Not initialized"))
  /\ destroy W AV this authOptions = ([], Throw (JsError "Not initialized"))
  /\ _update W AV lib this x authOptions = ([], Throw (JsError "Not initialized"))
  /\ createLeaderboard W AV lib x y z u authOptions
     = ([], Throw (JsError "Not initialized")).
Proof.
  intros Hinit Hu Hid.
  rewrite (getStatistics_valid W AV lib user x authOptions Hu Hid).
  rewrite (updateStatistics_valid W AV lib user x authOptions Hu Hid).
  unfold fetch, reset, destroy, _update, createLeaderboard.
  rewrite !(request_uninitialized W AV _ Hinit).
  repeat split; reflexivity.
Qed.

Lemma leaderboard_not_initialized_witness :
  getStatistics demo_platform unconfigured_AV demo_helpers (JObj {[ "id" := JStr "u1" ]})
    JUndef None
  = ([], Rejected (JsError "Not initialized"))
  /\ fetch demo_platform unconfigured_AV demo_helpers (Leaderboard (JStr "score")) None
     = ([], Throw (JsError "Not initialized")).
Proof.
  assert (Hinit : initialized unconfigured_AV = false) by reflexivity.
  assert (Hu : truthy (JObj {[ "id" := JStr "u1" ]}) = true) by reflexivity.
  assert (Hid : truthy (field (JObj {[ "id" := JStr "u1" ]}) "id") = true) by reflexivity.
  destruct (leaderboard_not_initialized demo_platform unconfigured_AV demo_helpers
              (Leaderboard (JStr "score")) (JObj {[ "id" := JStr "u1" ]})
              JUndef JUndef JUndef JUndef None Hinit Hu Hid)
    as (Hget & _ & Hfetch & _).
  split; [exact Hget | exact Hfetch].
Defined.

(** X20. [destroy] ends with a DELETE for the leaderboard and resolves with
    [undefined], whatever payload the transport answers with; when the
    transport fails, the promise is rejected with the normalized error. *)
Theorem destroy_resolves_undefined (W : Platform) (AV : AVGlobal)
    (this : gmap string jsval) (authOptions : option AuthOptions.t) (url : string) :
  initialized AV = true ->
  createApiUrl AV None None
    (Some ("/leaderboard/leaderboards/" +:+ ToString (field (JObj this) "statisticName")))
    = Normal url ->
  exists warn lookup args settle,
    destroy W AV this authOptions
    = (EvRefresh :: warn, Normal (lookup ++ [EvAjax args], settle))
    /\ ajax_method args = Some "DELETE"
    /\ ajax_url args = url
    /\ match ajax W args with
       | Resolved _ => settle = Resolved JUndef
       | Rejected raw => handleError W raw = ([], settle)
       end.
Proof.
  intros Hinit Hurl.
  destruct (request_shape W AV
    {| service := None; version := None; method := Some "DELETE";
       path := Some ("/leaderboard/leaderboards/"
                     +:+ ToString (field (JObj this) "statisticName"));
       query := JUndef; data := JUndef; authOptions := authOptions |} url Hinit Hurl)
    as (h & h' & lookup & Hshape).
  cbv zeta in Hshape. destruct Hshape as (_ & _ & _ & Hreq).
  cbn [method query data] in Hreq.
  set (args := {| ajax_method := Some "DELETE"; ajax_url := url; ajax_query := JUndef;
                  ajax_data := JObj ∅; ajax_headers := h' |}) in *.
  eexists.
  exists lookup, args,
    (match ajax W args with
     | Resolved _ => Resolved JUndef
     | Rejected raw => snd (handleError W raw)
     end).
  split; [|split; [reflexivity|split; [reflexivity|]]].
  - unfold destroy. rewrite Hreq. unfold bind, ret, p_then_value. rewrite app_nil_r.
    destruct (ajax W args) as [payload|raw]; [reflexivity|].
    destruct (handleError_rejects W raw) as [reason Hrej]. rewrite Hrej. reflexivity.
  - destruct (ajax W args) as [payload|raw]; [reflexivity|].
    destruct (handleError_rejects W raw) as [reason Hrej]. rewrite Hrej. reflexivity.
Qed.

Lemma destroy_resolves_undefined_witness :
  exists sync async,
    destroy (answering_platform sample_leaderboard_data) demo_AV
      (Leaderboard (JStr "score")) None
    = (sync, Normal (async, Resolved JUndef)).
Proof.
  assert (Hinit : initialized demo_AV = true) by reflexivity.
  assert (Hurl : createApiUrl demo_AV None None
            (Some ("/leaderboard/leaderboards/"
                   +:+ ToString (field (JObj (Leaderboard (JStr "score"))) "statisticName")))
            = Normal "https://x.example/1.1/leaderboard/leaderboards/score") by reflexivity.
  destruct (destroy_resolves_undefined (answering_platform sample_leaderboard_data) demo_AV
              (Leaderboard (JStr "score")) None
              "https://x.example/1.1/leaderboard/leaderboards/score" Hinit Hurl)
    as (warn & lookup & args & settle & Hrun & _ & _ & Hsettle).
  cbn in Hsettle. subst settle. eauto.
Defined.

(** X21. When the user passes the check and the transport answers with a
    payload whose [results] is an array, [getStatistics] resolves with one
    statistic per element, in the same order: name, value and version come
    from the decoded element, the user is the one passed in, and the
    position is left undefined. The transport is called once. *)
Theorem getStatistics_resolves (W : Platform) (AV : AVGlobal) (lib : Helpers)
    (user statisticNames : jsval) (authOptions : option AuthOptions.t)
    (url : string) (payload : jsval) (rows : list jsval) :
  truthy user = true -> truthy (field user "id") = true ->
  initialized AV = true ->
  createApiUrl AV None None
    (Some ("/leaderboard/users/" +:+ ToString (field user "id") +:+ "/statistics"))
    = Normal url ->
  (forall a, ajax W a = Resolved payload) ->
  get_prop payload "results" = Normal (JArr rows) ->
  (forall row, row ∈ rows -> nullish (AV_decode lib row) = false) ->
  exists events,
    getStatistics W AV lib user statisticNames authOptions
    = (events,
       Resolved (map (fun row =>
                        Statistic.mk (field (AV_decode lib row) "statisticName")
                                     (field (AV_decode lib row) "statisticValue")
                                     user JUndef
                                     (field (AV_decode lib row) "version")) rows))
    /\ count_events is_ajax events = 1.
Proof.
  intros Hu Hid Hinit Hurl Hajax Hresults Hrows.
  rewrite (getStatistics_valid W AV lib user statisticNames authOptions Hu Hid).
  destruct (request_answered W AV
    {| service := None; version := None; method := Some "GET";
       path := Some ("/leaderboard/users/" +:+ ToString (field user "id")
                     +:+ "/statistics");
       query := JObj {[ "statistics" :=
                          if truthy statisticNames then ensureArray lib statisticNames
                          else JUndef ]};
       data := JUndef; authOptions := authOptions |}
    url payload Hinit Hurl Hajax) as (warn & lookup & args & Hreq & Hwarn & Hlookup & _).
  rewrite Hreq. unfold bind, ret, p_resolve_then, p_then_value.
  assert (Hstats : statistics_of lib user payload
    = Normal (map (fun row =>
                     Statistic.mk (field (AV_decode lib row) "statisticName")
                                  (field (AV_decode lib row) "statisticValue")
                                  user JUndef
                                  (field (AV_decode lib row) "version")) rows)).
  { unfold statistics_of. rewrite Hresults. cbn [cbind results_map].
    apply map_try_Normal. intros row Hrow.
    rewrite !get_prop_field by (now apply Hrows). reflexivity. }
  rewrite Hstats. eexists. split; [reflexivity|].
  rewrite app_nil_r. now apply count_ajax_trace.
Qed.

Lemma getStatistics_resolves_witness :
  exists events,
    getStatistics
      (answering_platform
         (JObj {[ "results" := JArr [JObj (<["statisticName" := JStr "score"]>
                                            {[ "statisticValue" := JNum 42 ]})] ]}))
      demo_AV demo_helpers (JObj {[ "id" := JStr "u1" ]}) JUndef None
    = (events,
       Resolved [Statistic.mk (JStr "score") (JNum 42) (JObj {[ "id" := JStr "u1" ]})
                              JUndef JUndef]).
Proof.
  assert (Hu : truthy (JObj {[ "id" := JStr "u1" ]}) = true) by reflexivity.
  assert (Hid : truthy (field (JObj {[ "id" := JStr "u1" ]}) "id") = true) by reflexivity.
  assert (Hinit : initialized demo_AV = true) by reflexivity.
  assert (Hurl : createApiUrl demo_AV None None
            (Some ("/leaderboard/users/"
                   +:+ ToString (field (JObj {[ "id" := JStr "u1" ]}) "id")
                   +:+ "/statistics"))
            = Normal "https://x.example/1.1/leaderboard/users/u1/statistics") by reflexivity.
  assert (Hres : get_prop
            (JObj {[ "results" := JArr [JObj (<["statisticName" := JStr "score"]>
                                               {[ "statisticValue" := JNum 42 ]})] ]})
            "results"
            = Normal (JArr [JObj (<["statisticName" := JStr "score"]>
                                   {[ "statisticValue" := JNum 42 ]})])) by reflexivity.
  assert (Hajax : forall a,
            ajax (answering_platform
                    (JObj {[ "results" := JArr [JObj (<["statisticName" := JStr "score"]>
                                                       {[ "statisticValue" := JNum 42 ]})] ]}))
                 a
            = Resolved
                (JObj {[ "results" := JArr [JObj (<["statisticName" := JStr "score"]>
                                                   {[ "statisticValue" := JNum 42 ]})] ]}))
    by reflexivity.
  destruct (getStatistics_resolves _ demo_AV demo_helpers (JObj {[ "id" := JStr "u1" ]})
              JUndef None _ _ _ Hu Hid Hinit Hurl Hajax Hres)
    as (events & Hrun & _).
  - intros row Hrow. apply list_elem_of_singleton in Hrow. now subst row.
  - exists events. exact Hrun.
Defined.

(** X22. When the payload has no [results], or [results] is not an array,
    the promise of [getStatistics] is rejected with a TypeError raised by
    the code itself, not with a normalized error: [handleError] is only on
    the failure branch of the transport. *)
Theorem getStatistics_malformed_payload (W : Platform) (AV : AVGlobal) (lib : Helpers)
    (user statisticNames : jsval) (authOptions : option AuthOptions.t)
    (url : string) (payload : jsval) :
  truthy user = true -> truthy (field user "id") = true ->
  initialized AV = true ->
  createApiUrl AV None None
    (Some ("/leaderboard/users/" +:+ ToString (field user "id") +:+ "/statistics"))
    = Normal url ->
  (forall a, ajax W a = Resolved payload) ->
  (forall rows, field payload "results" <> JArr rows) ->
  exists events,
    getStatistics W AV lib user statisticNames authOptions = (events, Rejected TypeError)
    /\ count_events is_ajax events = 1.
Proof.
  intros Hu Hid Hinit Hurl Hajax Hresults.
  rewrite (getStatistics_valid W AV lib user statisticNames authOptions Hu Hid).
  destruct (request_answered W AV
    {| service := None; version := None; method := Some "GET";
       path := Some ("/leaderboard/users/" +:+ ToString (field user "id")
                     +:+ "/statistics");
       query := JObj {[ "statistics" :=
                          if truthy statisticNames then ensureArray lib statisticNames
                          else JUndef ]};
       data := JUndef; authOptions := authOptions |}
    url payload Hinit Hurl Hajax) as (warn & lookup & args & Hreq & Hwarn & Hlookup & _).
  rewrite Hreq. unfold bind, ret, p_resolve_then, p_then_value.
  assert (Hstats : statistics_of lib user payload = Throw TypeError).
  { unfold statistics_of. unfold field in Hresults.
    destruct (get_prop payload "results") as [results|e] eqn:Hget; cbn [cbind].
    - destruct results; try reflexivity. now contradiction (Hresults l).
    - destruct payload; cbn in Hget; congruence. }
  rewrite Hstats. eexists. split; [reflexivity|].
  rewrite app_nil_r. now apply count_ajax_trace.
Qed.

Lemma getStatistics_malformed_payload_witness :
  exists events,
    getStatistics (answering_platform (JObj ∅)) demo_AV demo_helpers
      (JObj {[ "id" := JStr "u1" ]}) JUndef None
    = (events, Rejected TypeError).
Proof.
  assert (Hu : truthy (JObj {[ "id" := JStr "u1" ]}) = true) by reflexivity.
  assert (Hid : truthy (field (JObj {[ "id" := JStr "u1" ]}) "id") = true) by reflexivity.
  assert (Hinit : initialized demo_AV = true) by reflexivity.
  assert (Hurl : createApiUrl demo_AV None None
            (Some ("/leaderboard/users/"
                   +:+ ToString (field (JObj {[ "id" := JStr "u1" ]}) "id")
                   +:+ "/statistics"))
            = Normal "https://x.example/1.1/leaderboard/users/u1/statistics") by reflexivity.
  assert (Hres : forall rows, field (JObj ∅) "results" <> JArr rows)
    by (intros rows; discriminate).
  assert (Hajax : forall a, ajax (answering_platform (JObj ∅)) a = Resolved (JObj ∅))
    by reflexivity.
  destruct (getStatistics_malformed_payload (answering_platform (JObj ∅)) demo_AV
              demo_helpers (JObj {[ "id" := JStr "u1" ]}) JUndef None _ (JObj ∅)
              Hu Hid Hinit Hurl Hajax Hres) as (events & Hrun & _).
  exists events. exact Hrun.
Defined.



(** A step that neither does anything nor throws. *)
Lemma bind_lift_Normal {A B} (a : A) (k : A -> Eff B) : bind (lift (Normal a)) k = k a.
Proof. unfold bind, lift. destruct (k a) as [evs r]. reflexivity. Qed.

(** The request of [_getResults] and what its promise resolves with, for
    either value of [self]. *)
Lemma _getResults_answered (W : Platform) (AV : AVGlobal) (lib : Helpers)
    (this : gmap string jsval) (skip limit includeUserKeys self : jsval)
    (authOptions : option AuthOptions.t) (url : string) (payload : jsval)
    (rows : list jsval) :
  initialized AV = true ->
  createApiUrl AV None None
    (Some ("/leaderboard/leaderboards/" +:+ ToString (field (JObj this) "statisticName")
           +:+ "/positions" +:+ (if truthy self then "/self" else "")))
    = Normal url ->
  (truthy includeUserKeys = true -> exists keys, ensureArray lib includeUserKeys = JArr keys) ->
  (forall a, ajax W a = Resolved payload) ->
  get_prop payload "results" = Normal (JArr rows) ->
  (forall row, row ∈ rows -> nullish (AV_decode lib row) = false) ->
  exists warn lookup args,
    _getResults W AV lib this skip limit includeUserKeys authOptions self
    = (EvRefresh :: warn,
       Normal (lookup ++ [EvAjax args],
               Resolved (map (fun row =>
                                Statistic.mk (field (AV_decode lib row) "statisticName")
                                             (field (AV_decode lib row) "statisticValue")
                                             (field (AV_decode lib row) "user")
                                             (field (AV_decode lib row) "position")
                                             JUndef) rows)))
    /\ (lookup = [] \/ lookup = [EvCurrentAsync])
    /\ ajax_method args = Some "GET"
    /\ ajax_url args = url
    /\ ajax_query args
       = JObj (<["skip" := skip]>
                (<["limit" := limit]>
                  (<["includeUser" :=
                       if truthy includeUserKeys
                       then JStr (ToString (ensureArray lib includeUserKeys))
                       else JUndef]> ∅))).
Proof.
  intros Hinit Hurl Harr Hajax Hresults Hrows.
  assert (Hinclude :
    (if truthy includeUserKeys
     then try! joined := join_comma (ensureArray lib includeUserKeys) in Normal (JStr joined)
     else Normal JUndef)
    = Normal (if truthy includeUserKeys
              then JStr (ToString (ensureArray lib includeUserKeys)) else JUndef)).
  { destruct (truthy includeUserKeys); [|reflexivity].
    destruct (Harr eq_refl) as [keys Hkeys]. rewrite Hkeys. reflexivity. }
  destruct (request_answered W AV
    {| service := None; version := None; method := Some "GET";
       path := Some ("/leaderboard/leaderboards/"
                     +:+ ToString (field (JObj this) "statisticName")
                     +:+ "/positions" +:+ (if truthy self then "/self" else ""));
       query := JObj (<["skip" := skip]>
                       (<["limit" := limit]>
                         (<["includeUser" :=
                              if truthy includeUserKeys
                              then JStr (ToString (ensureArray lib includeUserKeys))
                              else JUndef]> ∅)));
       data := JUndef; authOptions := authOptions |}
    url payload Hinit Hurl Hajax)
    as (warn & lookup & args & Hreq & _ & Hlookup & Hu & Hm & Hq & _).
  assert (Hranks : rankings_of lib payload
    = Normal (map (fun row =>
                     Statistic.mk (field (AV_decode lib row) "statisticName")
                                  (field (AV_decode lib row) "statisticValue")
                                  (field (AV_decode lib row) "user")
                                  (field (AV_decode lib row) "position")
                                  JUndef) rows)).
  { unfold rankings_of. rewrite Hresults. cbn [cbind results_map].
    apply map_try_Normal. intros row Hrow.
    rewrite !get_prop_field by (now apply Hrows). reflexivity. }
  exists warn, lookup, args. split; [|now repeat split].
  unfold _getResults. rewrite Hinclude, bind_lift_Normal.
  rewrite Hreq. unfold bind, ret, p_then_value.
  rewrite Hranks, app_nil_r. reflexivity.
Qed.

(** X24. When the transport answers with a payload whose [results] is an
    array, [getResults] resolves with one statistic per element, in the same
    order: user, name, value and position come from the decoded element and
    the version is left undefined. The request is a GET to the [positions]
    of the leaderboard, and the transport is called once. *)
Theorem getResults_resolves (W : Platform) (AV : AVGlobal) (lib : Helpers)
    (this : gmap string jsval) (skip limit includeUserKeys : jsval)
    (authOptions : option AuthOptions.t) (url : string) (payload : jsval)
    (rows : list jsval) :
  initialized AV = true ->
  createApiUrl AV None None
    (Some ("/leaderboard/leaderboards/" +:+ ToString (field (JObj this) "statisticName")
           +:+ "/positions"))
    = Normal url ->
  (truthy includeUserKeys = true -> exists keys, ensureArray lib includeUserKeys = JArr keys) ->
  (forall a, ajax W a = Resolved payload) ->
  get_prop payload "results" = Normal (JArr rows) ->
  (forall row, row ∈ rows -> nullish (AV_decode lib row) = false) ->
  exists sync async,
    getResults W AV lib this skip limit includeUserKeys authOptions
    = (sync,
       Normal (async,
               Resolved (map (fun row =>
                                Statistic.mk (field (AV_decode lib row) "statisticName")
                                             (field (AV_decode lib row) "statisticValue")
                                             (field (AV_decode lib row) "user")
                                             (field (AV_decode lib row) "position")
                                             JUndef) rows)))
    /\ count_events is_ajax async = 1
    /\ exists args, EvAjax args ∈ async /\ ajax_method args = Some "GET" /\ ajax_url args = url.
Proof.
  intros Hinit Hurl Harr Hajax Hresults Hrows.
  destruct (_getResults_answered W AV lib this skip limit includeUserKeys JUndef
              authOptions url payload rows Hinit Hurl Harr Hajax Hresults Hrows)
    as (warn & lookup & args & Hrun & Hlookup & Hm & Hu & _).
  exists (EvRefresh :: warn), (lookup ++ [EvAjax args]).
  split; [exact Hrun|]. split.
  - rewrite count_events_app. now destruct Hlookup as [-> | ->].
  - exists args. split; [|now split].
    apply elem_of_app. right. now apply list_elem_of_singleton.
Qed.

Lemma getResults_resolves_witness :
  exists sync async,
    getResults
      (answering_platform
         (JObj {[ "results" := JArr [JObj (<["user" := JStr "u1"]>
                                            {[ "position" := JNum 0 ]})] ]}))
      demo_AV demo_helpers (Leaderboard (JStr "score")) (JNum 0) (JNum 10) JUndef None
    = (sync, Normal (async, Resolved [Statistic.mk JUndef JUndef (JStr "u1") (JNum 0) JUndef])).
Proof.
  assert (Hinit : initialized demo_AV = true) by reflexivity.
  assert (Hurl : createApiUrl demo_AV None None
            (Some ("/leaderboard/leaderboards/"
                   +:+ ToString (field (JObj (Leaderboard (JStr "score"))) "statisticName")
                   +:+ "/positions"))
            = Normal "https://x.example/1.1/leaderboard/leaderboards/score/positions")
    by reflexivity.
  assert (Harr : truthy JUndef = true -> exists keys, ensureArray demo_helpers JUndef = JArr keys)
    by discriminate.
  assert (Hajax : forall a,
            ajax (answering_platform
                    (JObj {[ "results" := JArr [JObj (<["user" := JStr "u1"]>
                                                       {[ "position" := JNum 0 ]})] ]}))
                 a
            = Resolved
                (JObj {[ "results" := JArr [JObj (<["user" := JStr "u1"]>
                                                   {[ "position" := JNum 0 ]})] ]}))
    by reflexivity.
  assert (Hres : get_prop
            (JObj {[ "results" := JArr [JObj (<["user" := JStr "u1"]>
                                               {[ "position" := JNum 0 ]})] ]})
            "results"
            = Normal (JArr [JObj (<["user" := JStr "u1"]> {[ "position" := JNum 0 ]})]))
    by reflexivity.
  destruct (getResults_resolves _ demo_AV demo_helpers (Leaderboard (JStr "score"))
              (JNum 0) (JNum 10) JUndef None _ _ _ Hinit Hurl Harr Hajax Hres)
    as (sync & async & Hrun & _).
  - intros row Hrow. apply list_elem_of_singleton in Hrow. now subst row.
  - exists sync, async. exact Hrun.
Defined.

(** X25. [getResultsAroundUser] asks for the [positions/self] of the
    leaderboard and never sends a [skip]: the query holds [skip] as
    undefined, the limit as given, and [includeUser] as the keys joined by
    commas, or undefined when no keys are given. *)
Theorem getResultsAroundUser_request (W : Platform) (AV : AVGlobal) (lib : Helpers)
    (this : gmap string jsval) (limit includeUserKeys : jsval)
    (authOptions : option AuthOptions.t) (url : string) :
  initialized AV = true ->
  createApiUrl AV None None
    (Some ("/leaderboard/leaderboards/" +:+ ToString (field (JObj this) "statisticName")
           +:+ "/positions/self"))
    = Normal url ->
  (truthy includeUserKeys = true -> exists keys, ensureArray lib includeUserKeys = JArr keys) ->
  exists warn lookup args settle,
    getResultsAroundUser W AV lib this limit includeUserKeys authOptions
    = (EvRefresh :: warn, Normal (lookup ++ [EvAjax args], settle))
    /\ ajax_method args = Some "GET"
    /\ ajax_url args = url
    /\ ajax_query args
       = JObj (<["skip" := JUndef]>
                (<["limit" := limit]>
                  (<["includeUser" :=
                       if truthy includeUserKeys
                       then JStr (ToString (ensureArray lib includeUserKeys))
                       else JUndef]> ∅))).
Proof.
  intros Hinit Hurl Harr.
  assert (Hinclude :
    (if truthy includeUserKeys
     then try! joined := join_comma (ensureArray lib includeUserKeys) in Normal (JStr joined)
     else Normal JUndef)
    = Normal (if truthy includeUserKeys
              then JStr (ToString (ensureArray lib includeUserKeys)) else JUndef)).
  { destruct (truthy includeUserKeys); [|reflexivity].
    destruct (Harr eq_refl) as [keys Hkeys]. rewrite Hkeys. reflexivity. }
  destruct (request_shape W AV
    {| service := None; version := None; method := Some "GET";
       path := Some ("/leaderboard/leaderboards/"
                     +:+ ToString (field (JObj this) "statisticName")
                     +:+ "/positions" +:+ (if truthy (JBool true) then "/self" else ""));
       query := JObj (<["skip" := JUndef]>
                       (<["limit" := limit]>
                         (<["includeUser" :=
                              if truthy includeUserKeys
                              then JStr (ToString (ensureArray lib includeUserKeys))
                              else JUndef]> ∅)));
       data := JUndef; authOptions := authOptions |} url Hinit Hurl)
    as (h & h' & lookup & Hshape).
  cbv zeta in Hshape. destruct Hshape as (_ & _ & _ & Hreq).
  cbn [method query data] in Hreq.
  unfold getResultsAroundUser, _getResults. rewrite Hinclude, bind_lift_Normal.
  rewrite Hreq. unfold bind, ret, p_then_value. rewrite app_nil_r.
  destruct (ajax W _) as [payload|raw].
  - destruct (rankings_of lib payload);
      do 4 eexists; (split; [reflexivity|]); repeat split.
  - destruct (handleError_rejects W raw) as [e He]. rewrite He. cbn [snd].
    do 4 eexists. (split; [reflexivity|]). repeat split.
Qed.

Lemma getResultsAroundUser_request_witness :
  exists warn lookup args settle,
    getResultsAroundUser demo_platform demo_AV demo_helpers (Leaderboard (JStr "score"))
      (JNum 5) (JArr [JStr "username"; JStr "age"]) None
    = (EvRefresh :: warn, Normal (lookup ++ [EvAjax args], settle))
    /\ ajax_url args = "https://x.example/1.1/leaderboard/leaderboards/score/positions/self"
    /\ ajax_query args
       = JObj (<["skip" := JUndef]>
                (<["limit" := JNum 5]> (<["includeUser" := JStr "username,age"]> ∅))).
Proof.
  assert (Hinit : initialized demo_AV = true) by reflexivity.
  assert (Hurl : createApiUrl demo_AV None None
            (Some ("/leaderboard/leaderboards/"
                   +:+ ToString (field (JObj (Leaderboard (JStr "score"))) "statisticName")
                   +:+ "/positions/self"))
            = Normal "https://x.example/1.1/leaderboard/leaderboards/score/positions/self")
    by reflexivity.
  assert (Harr : truthy (JArr [JStr "username"; JStr "age"]) = true ->
            exists keys, ensureArray demo_helpers (JArr [JStr "username"; JStr "age"])
                         = JArr keys)
    by (intros _; eexists; reflexivity).
  destruct (getResultsAroundUser_request demo_platform demo_AV demo_helpers
              (Leaderboard (JStr "score")) (JNum 5) (JArr [JStr "username"; JStr "age"])
              None _ Hinit Hurl Harr)
    as (warn & lookup & args & settle & Hrun & _ & Hu & Hq).
  exists warn, lookup, args, settle. split; [exact Hrun|]. split; [exact Hu | exact Hq].
Defined.



